(** * KYC ML service: a shallow embedding of [apps/ml-service/app]

    The service exposes three endpoints (face verification, face extraction,
    liveness detection).  The embedding follows the Python sources module by
    module:

    - [Py]: the Python values the code manipulates (dictionaries with string
      keys, exceptions, the built-ins [max], [min], [bool], [dict.get]);
    - [np]: the two-dimensional array slicing [a[y0:y1, x0:x1]];
    - [base64]: [base64.b64encode];
    - [OpenCVService], [DeepFaceService]: [app/services/*.py];
    - [http], [face_extraction], [liveness], [face_verification]:
      [app/routers/*.py], as programs of a state-and-exception monad whose
      state is the temporary-file store together with an event trace.

    The third-party libraries (cv2, numpy reductions, DeepFace) and the
    operating system are interfaces ([Class]es): every theorem holds for all
    of their implementations, and closed examples instantiate them. *)

From Stdlib Require Import ZArith QArith Lia List String Ascii.
From Stdlib Require Import PrimFloat FloatOps FloatAxioms SpecFloat.
From Stdlib Require Uint63.
From Stdlib.Strings Require Import Byte.
From stdpp Require Import base option gmap strings list.

Open Scope string_scope.
Open Scope Z_scope.

(* ===================================================================== *)
(** * Python values, exceptions and built-ins *)
(* ===================================================================== *)

Module Py.

(** The values stored in the result dictionaries. *)
Inductive pyval :=
| PyNone
| PyBool (b : bool)
| PyInt (n : Z)
| PyFloat (f : float)
| PyStr (s : string).

(** [Dict[str, Any]]. *)
Abbreviation dict := (gmap string pyval).

(** Truth value of an object, as [bool(v)], [if v] and [not v] compute it. *)
Definition truthy (v : pyval) : bool :=
  match v with
  | PyNone => false
  | PyBool b => b
  | PyInt n => negb (n =? 0)
  | PyFloat f => negb (PrimFloat.eqb f 0%float)
  | PyStr s => negb (String.eqb s "")
  end.

(** [d.get(k)]: [None] when the key is absent. *)
Definition get (d : dict) (k : string) : pyval := default PyNone (d !! k).

(** [d.get(k, dflt)]. *)
Definition get_default (d : dict) (k : string) (dflt : pyval) : pyval :=
  default dflt (d !! k).

(** [v == "literal"]. *)
Definition eq_str (v : pyval) (s : string) : bool :=
  match v with
  | PyStr t => String.eqb t s
  | _ => false
  end.

(** Exceptions deriving from [Exception] that libraries and the operating
    system raise.  [ValueError] and [OSError] are told apart because the
    sources have [except ValueError] and [except OSError] clauses; every other
    class is caught by [except Exception] only. *)
Inductive exn :=
| ValueError (msg : string)
| OSError (msg : string)
| Exception (msg : string).

(** [str(exc)]. *)
Definition str (exc : exn) : string :=
  match exc with
  | ValueError msg | OSError msg | Exception msg => msg
  end.

(** What an [await] can raise: an exception of the classes above, or
    [asyncio.CancelledError] when the task of the request is cancelled.
    [CancelledError] derives from [BaseException] and not from [Exception]:
    an [except Exception] clause does not catch it. *)
Inductive base_exn :=
| Derived (exc : exn)
| CancelledError (msg : string).

Coercion Derived : exn >-> base_exn.

(** The outcome of a call that may raise. *)
Inductive result (E A : Type) :=
| Ok (a : A)
| Raise (e : E).
Arguments Ok {E A} a.
Arguments Raise {E A} e.

#[global] Instance result_ret {E} : MRet (result E) := fun _ a => Ok a.
#[global] Instance result_bind {E} : MBind (result E) :=
  fun _ _ k m => match m with Ok a => k a | Raise e => Raise e end.

(** [max(a, b)] and [min(a, b)] on floats: the first argument is kept unless
    the second compares strictly greater (resp. smaller); a NaN second
    argument therefore never wins. *)
Definition pymax (a b : float) : float := if PrimFloat.ltb a b then b else a.
Definition pymin (a b : float) : float := if PrimFloat.ltb b a then b else a.

(** [max(first :: rest, key=key)]: the first element whose key is maximal. *)
Fixpoint max_by {A} (key : A → Z) (best : A) (rest : list A) : A :=
  match rest with
  | [] => best
  | item :: rest' => max_by key (if key best <? key item then item else best) rest'
  end.

(** [int(n * ratio)] for an integer [n] and a fractional [ratio]: the product
    truncated towards zero.  The product is taken exactly here; the section
    on binary64 below shows that the computation of Python,
    [int(float(n) * 0.2)], gives the same integer for every non-negative
    32-bit [n], which the sides of a detection are. *)
Definition int_of_product (n : Z) (ratio : Q) : Z :=
  Z.quot (n * Qnum ratio) (Z.pos (Qden ratio)).

(** The binary64 computation itself.  [float(n)] for [0 <= n < 2^63]: *)
Definition float_of_int (n : Z) : float := of_uint63 (Uint63.of_Z n).

(** [int(x)]: the float truncated towards zero; [None] stands for the
    [OverflowError] and [ValueError] of infinities and NaN. *)
Definition int_of_float (x : float) : option Z :=
  match Prim2SF x with
  | S754_zero _ => Some 0
  | S754_finite s m e =>
      let magnitude := if 0 <=? e then Z.pos m * 2 ^ e else Z.pos m / 2 ^ (- e) in
      Some (if s then - magnitude else magnitude)
  | _ => None
  end.

(** The double written [0.2]. *)
Definition fifth : float := 0x1.999999999999ap-3%float.

End Py.

Import Py.

(* ===================================================================== *)
(** * numpy: two-dimensional arrays and basic slicing *)
(* ===================================================================== *)

Module np.

(** A two-dimensional array, row by row; an element is a pixel (three
    channels) or a grey level. *)
Abbreviation ndarray A := (list (list A)).

Definition height {A} (a : ndarray A) : Z := Z.of_nat (length a).
Definition width {A} (a : ndarray A) : Z :=
  match a with
  | [] => 0
  | row :: _ => Z.of_nat (length row)
  end.

(** Every row has the array's width. *)
Definition rectangular {A} (a : ndarray A) : Prop :=
  Forall (λ row, Z.of_nat (length row) = width a) a.

(** The value an int32 operation stores: the result wrapped to 32 bits. *)
Definition int32 (n : Z) : Z := (n + 2 ^ 31) mod 2 ^ 32 - 2 ^ 31.

(** A slice bound resolved against a length [n]: a negative bound counts from
    the end, and every bound is clipped to [0, n]. *)
Definition bound (n i : Z) : Z :=
  if i <? 0 then Z.max 0 (i + n) else Z.min i n.

(** [l[start:stop]]. *)
Definition slice {A} (l : list A) (start stop : Z) : list A :=
  let n := Z.of_nat (length l) in
  let a := bound n start in
  let b := bound n stop in
  take (Z.to_nat (b - a)) (drop (Z.to_nat a) l).

(** [a[y0:y1, x0:x1]]. *)
Definition slice2 {A} (a : ndarray A) (y0 y1 x0 x1 : Z) : ndarray A :=
  (λ row, slice row x0 x1) <$> slice a y0 y1.

End np.

(* ===================================================================== *)
(** * base64.b64encode *)
(* ===================================================================== *)

Module base64.

Definition alphabet : string :=
  "ABCDEFGHIJKLMNOPQRSTUVWXYZabcdefghijklmnopqrstuvwxyz0123456789+/".

Definition digit (n : N) : ascii :=
  default "="%char (String.get (N.to_nat n) alphabet).

(** Three bytes give four digits; one or two trailing bytes are padded
    with [=]. *)
Fixpoint b64encode (data : list byte) : string :=
  match data with
  | [] => ""
  | [a] =>
      let n := (Byte.to_N a * 65536)%N in
      String (digit (n / 262144)) (String (digit (n / 4096 mod 64)) "==")
  | [a; b] =>
      let n := (Byte.to_N a * 65536 + Byte.to_N b * 256)%N in
      String (digit (n / 262144)) (String (digit (n / 4096 mod 64))
        (String (digit (n / 64 mod 64)) "="))
  | a :: b :: c :: rest =>
      let n := (Byte.to_N a * 65536 + Byte.to_N b * 256 + Byte.to_N c)%N in
      String (digit (n / 262144)) (String (digit (n / 4096 mod 64))
        (String (digit (n / 64 mod 64)) (String (digit (n mod 64))
          (b64encode rest))))
  end.

End base64.

(* ===================================================================== *)
(** * The libraries the services delegate to *)
(* ===================================================================== *)

(** Files by path: what [cv2.imread] and DeepFace read, and what the
    endpoints write uploads to. *)
Abbreviation files := (gmap string (list byte)).

Module cv2.

(** An 8-bit BGR image as [cv2.imread] returns it, a grey-level image, and a
    detection [(x, y, w, h)]. *)
Abbreviation image := (np.ndarray (Z * Z * Z)).
Abbreviation gray_image := (np.ndarray Z).
Abbreviation rect := (Z * Z * Z * Z)%type.

(** [image.shape]. *)
Definition shape (img : image) : Z * Z * Z := (np.height img, np.width img, 3).

Class API := {
  (** [cv2.imread(path)]: [None] when the file is missing or cannot be
      decoded. *)
  imread : files → string → option image;
  (** [cv2.cvtColor(image, cv2.COLOR_BGR2GRAY)] and [cv2.equalizeHist]. *)
  cvtColor_BGR2GRAY : image → gray_image;
  equalizeHist : gray_image → gray_image;
  (** [cascade.detectMultiScale(gray, scaleFactor=1.1, minNeighbors=5,
      minSize=(30, 30))] for the frontal-face Haar cascade: the detections,
      or an error (an empty classifier raises). *)
  detectMultiScale : gray_image → result exn (list rect);
  (** [cv2.imencode(ext, img)]: the success flag and the encoded buffer; the
      encoder raises on an empty image. *)
  imencode : string → image → result exn (bool * list byte);
  (** [cv2.Laplacian(gray, cv2.CV_64F)]. *)
  Laplacian_CV_64F : gray_image → np.ndarray float;
}.

End cv2.

Module numpy.

Class API := {
  (** [a.var()] and [a.mean()]. *)
  var : np.ndarray float → float;
  mean : np.ndarray Z → float;
  (** [round(x, ndigits)] on a float score. *)
  round : float → Z → float;
}.

End numpy.

Module DeepFace.

(** The dictionary [DeepFace.verify] returns, restricted to the three keys
    the service reads; [None] stands for an absent key.  The library stores
    a boolean under ["verified"] and floats under ["distance"] and
    ["threshold"], on which [bool(...)] and [float(...)] are the identity. *)
Record verification := {
  verified : option bool;
  distance : option float;
  threshold : option float;
}.

Class API := {
  (** [DeepFace.verify(img1_path, img2_path, model_name, detector_backend)];
      raises [ValueError] when a face cannot be detected. *)
  verify : files → string → string → string → string → result exn verification;
  (** The files as a call of [verify] leaves them: the library downloads the
      weights of the model into its home directory when they are not there
      yet (the warm-up of [main.startup_event] may have failed). *)
  files_after_verify : files → string → string → string → string → files;
  (** [DeepFace.extract_faces(img_path, detector_backend)]: one entry per
      detected face. *)
  extract_faces : files → string → string → result exn (list cv2.rect);
}.

End DeepFace.

(* ===================================================================== *)
(** * app/services/opencv_service.py *)
(* ===================================================================== *)

Module OpenCVService.

(** The key of [max(faces, key=lambda rect: rect[2] * rect[3])].  The
    detections are the rows of an int32 array, so the product is an int32
    product, which wraps around at 32 bits.  For a box in an image that
    [cv2.imread] accepts (at most 2^30 pixels) it is the area [w * h]: see
    [area_fits_int32]. *)
Definition area (r : cv2.rect) : Z :=
  let '(_, _, w, h) := r in np.int32 (w * h).

(** The area of a detection as a number of pixels, width times height,
    without wrap-around. *)
Definition width_times_height (r : cv2.rect) : Z :=
  let '(_, _, w, h) := r in w * h.

Definition _add_padding (shape : Z * Z * Z) (bbox : cv2.rect) (padding_ratio : Q)
  : cv2.rect :=
  let '(height, width, _) := shape in
  let '(x, y, w, h) := bbox in
  let pad_w := int_of_product w padding_ratio in
  let pad_h := int_of_product h padding_ratio in
  let x_new := Z.max 0 (x - pad_w) in
  let y_new := Z.max 0 (y - pad_h) in
  let w_new := Z.min (width - x_new) (w + 2 * pad_w) in
  let h_new := Z.min (height - y_new) (h + 2 * pad_h) in
  (x_new, y_new, w_new, h_new).

(** The five-key dictionary every path returns. *)
Definition response (success face_found : bool) (face_base64 : pyval)
    (face_count : Z) (message : string) : dict :=
  {[ "success" := PyBool success;
     "face_found" := PyBool face_found;
     "face_base64" := face_base64;
     "face_count" := PyInt face_count;
     "message" := PyStr message ]}.

Section service.
Context {cv : cv2.API}.

(** [image[y : y + h, x : x + w]]. *)
Definition crop (image : cv2.image) (box : cv2.rect) : cv2.image :=
  let '(x, y, w, h) := box in np.slice2 image y (y + h) x (x + w).

(** The body of the [try] block. *)
Definition extract_face_try (fs : files) (img_path : string) : result exn dict :=
  match cv2.imread fs img_path with
  | None => mret (response false false PyNone 0 "Invalid or unreadable image")
  | Some image =>
      let gray := cv2.cvtColor_BGR2GRAY image in
      let gray := cv2.equalizeHist gray in
      faces ← cv2.detectMultiScale gray;
      let face_count := Z.of_nat (length faces) in
      match faces with
      | [] => mret (response false false PyNone 0 "No face detected")
      | first :: rest =>
          let largest := max_by area first rest in
          let box := _add_padding (cv2.shape image) largest (1 # 5) in
          let face_img := crop image box in
          '(success, buffer) ← cv2.imencode ".jpg" face_img;
          if negb success
          then mret (response false true PyNone face_count "Failed to encode face image")
          else
            let face_b64 := base64.b64encode buffer in
            mret (response true true (PyStr face_b64) face_count "Largest face extracted")
      end
  end.

(** [try: ... except Exception as exc: ...]. *)
Definition extract_face_from_document (fs : files) (img_path : string) : dict :=
  match extract_face_try fs img_path with
  | Ok d => d
  | Raise exc => response false false PyNone 0 (str exc)
  end.

(** The five shapes of a returned dictionary, one per [return]. *)
Inductive extraction_outcome (fs : files) (img_path : string) : dict → Prop :=
| unreadable :
    cv2.imread fs img_path = None →
    extraction_outcome fs img_path
      (response false false PyNone 0 "Invalid or unreadable image")
| no_face image :
    cv2.imread fs img_path = Some image →
    cv2.detectMultiScale (cv2.equalizeHist (cv2.cvtColor_BGR2GRAY image)) = Ok [] →
    extraction_outcome fs img_path
      (response false false PyNone 0 "No face detected")
| not_encoded image first rest buffer :
    cv2.imread fs img_path = Some image →
    cv2.detectMultiScale (cv2.equalizeHist (cv2.cvtColor_BGR2GRAY image)) = Ok (first :: rest) →
    cv2.imencode ".jpg"
      (crop image
         (_add_padding (cv2.shape image)
            (max_by area first rest) (1 # 5))) = Ok (false, buffer) →
    extraction_outcome fs img_path
      (response false true PyNone (Z.of_nat (length (first :: rest)))
         "Failed to encode face image")
| extracted image first rest buffer :
    cv2.imread fs img_path = Some image →
    cv2.detectMultiScale (cv2.equalizeHist (cv2.cvtColor_BGR2GRAY image)) = Ok (first :: rest) →
    cv2.imencode ".jpg"
      (crop image
         (_add_padding (cv2.shape image)
            (max_by area first rest) (1 # 5))) = Ok (true, buffer) →
    extraction_outcome fs img_path
      (response true true (PyStr (base64.b64encode buffer))
         (Z.of_nat (length (first :: rest))) "Largest face extracted")
| library_error exc :
    extract_face_try fs img_path = Raise exc →
    extraction_outcome fs img_path
      (response false false PyNone 0 (str exc)).

End service.
End OpenCVService.

(* ===================================================================== *)
(** * app/services/deepface_service.py *)
(* ===================================================================== *)

Module DeepFaceService.

Definition MODEL_NAME : string := "ArcFace".
Definition DETECTOR_BACKEND : string := "opencv".
Definition BLUR_THRESHOLD : float := 100%float.

(** The dictionary of a successful verification. *)
Definition verification (verified : bool) (confidence distance threshold : float)
  : dict :=
  {[ "verified" := PyBool verified;
     "confidence" := PyFloat confidence;
     "distance" := PyFloat distance;
     "model" := PyStr MODEL_NAME;
     "threshold" := PyFloat threshold ]}.

(** The dictionary of a failed verification: the error marker and the fixed
    values. *)
Definition verification_error (error : string) : dict :=
  {[ "verified" := PyBool false;
     "confidence" := PyFloat 0%float;
     "error" := PyStr error;
     "distance" := PyFloat 1%float;
     "model" := PyStr MODEL_NAME;
     "threshold" := PyFloat 0%float ]}.

Definition liveness (is_live : bool) (confidence : float) (message : string) : dict :=
  {[ "is_live" := PyBool is_live;
     "confidence" := PyFloat confidence;
     "method" := PyStr "basic_quality_check";
     "message" := PyStr message ]}.


(** [60 <= brightness <= 200]. *)
Definition well_lit (brightness : float) : bool :=
  PrimFloat.leb 60%float brightness && PrimFloat.leb brightness 200%float.

Section service.
Context {df : DeepFace.API} {cv : cv2.API} {npy : numpy.API}.

Definition verify_faces (fs : files) (img1_path img2_path : string) : dict :=
  match DeepFace.verify fs img1_path img2_path MODEL_NAME DETECTOR_BACKEND with
  | Ok result =>
      let distance := default 1%float (DeepFace.distance result) in
      let threshold := default 0%float (DeepFace.threshold result) in
      let confidence := pymax 0%float (1 - distance)%float in
      verification (default false (DeepFace.verified result))
        confidence distance threshold
  | Raise (ValueError _) => verification_error "No face detected"
  | Raise exc => verification_error (str exc)
  end.

(** The body of the [try] block. *)
Definition detect_liveness_try (fs : files) (img_path : string) : result exn dict :=
  faces ← DeepFace.extract_faces fs img_path DETECTOR_BACKEND;
  let face_count := Z.of_nat (length faces) in
  if face_count =? 0
  then mret (liveness false 0%float "No face detected")
  else
    match cv2.imread fs img_path with
    | None => mret (liveness false 0%float "Invalid image")
    | Some image =>
        let gray := cv2.cvtColor_BGR2GRAY image in
        let blur := numpy.var (cv2.Laplacian_CV_64F gray) in
        let brightness := numpy.mean gray in
        let blur_score := pymin 1%float (blur / BLUR_THRESHOLD)%float in
        let brightness_score := if well_lit brightness then 1%float else 0%float in
        let confidence := ((blur_score + brightness_score) / 2)%float in
        let is_live :=
          PrimFloat.ltb (BLUR_THRESHOLD * 0.5)%float blur
          && PrimFloat.ltb 0%float brightness_score in
        let message :=
          if is_live then "Liveness indicators passed" else "Liveness indicators weak" in
        mret (liveness is_live (numpy.round confidence 2) message)
    end.

(** [try: ... except Exception as exc: ...]. *)
Definition detect_liveness (fs : files) (img_path : string) : dict :=
  match detect_liveness_try fs img_path with
  | Ok d => d
  | Raise exc => liveness false 0%float (str exc)
  end.

End service.
End DeepFaceService.

(* ===================================================================== *)
(** * The HTTP layer: requests, temporary files, handlers *)
(* ===================================================================== *)

Module http.

(** A multipart upload; [content_type] may be missing. *)
Record UploadFile := {
  filename : string;
  content_type : option string;
  body : list byte;
}.

Definition HTTP_200_OK : Z := 200.
Definition HTTP_400_BAD_REQUEST : Z := 400.
Definition HTTP_500_INTERNAL_SERVER_ERROR : Z := 500.

(** What leaves a handler other than a return value: an [HTTPException], or
    any other exception (one that derives from [Exception] is answered by the
    application's catch-all handler). *)
Inductive raised :=
| HTTPException (status_code : Z) (detail : pyval)
| Uncaught (exc : base_exn).

(** What a handler does to its surroundings, in order. *)
Inductive event :=
| Created (path : string)
| Wrote (path : string) (content : list byte)
| Closed (path : string)
| Called (service : string) (args : list string) (result : dict)
| Unlinked (path : string) (removed : bool).

(** The state a handler runs in: the files on disk and the events so far. *)
Record world := {
  disk : files;
  trace : list event;
}.

(** The operating system and the upload stream: each call may fail, and
    whether it does may depend on the state. *)
Class OS := {
  (** [tempfile.NamedTemporaryFile(delete=False, suffix=".jpg")]: the name
      of the file created. *)
  mkstemp : world → result exn string;
  (** [await file.read()]: the only [await] of a handler, where the request
      can also be cancelled. *)
  read_upload : world → UploadFile → result base_exn (list byte);
  (** [tmp_file.write(content)] and [tmp_file.close()]. *)
  write_file : world → string → list byte → result exn ();
  close_file : world → string → result exn ();
  (** [os.unlink(path)]: [false] stands for an [OSError]. *)
  unlink_file : world → string → bool;
}.

(** Handlers: state passing with exceptions. *)
Definition M (A : Type) : Type := world → result raised A * world.

#[global] Instance M_ret : MRet M := λ _ a w, (Ok a, w).
#[global] Instance M_bind : MBind M := λ _ _ k m w,
  match m w with
  | (Ok a, w') => k a w'
  | (Raise e, w') => (Raise e, w')
  end.

Definition raise {A} (e : raised) : M A := λ w, (Raise e, w).

Definition log (e : event) (w : world) : world :=
  {| disk := disk w; trace := trace w ++ [e] |}.

(** An exception raised at the [await] propagates as it is. *)
Definition lift {A} (r : result base_exn A) (w : world) : result raised A * world :=
  match r with
  | Ok a => (Ok a, w)
  | Raise exc => (Raise (Uncaught exc), w)
  end.

Section effects.
Context {os : OS}.

Definition NamedTemporaryFile : M string := λ w,
  match mkstemp w with
  | Ok path => (Ok path, log (Created path) {| disk := <[path := []]> (disk w); trace := trace w |})
  | Raise exc => (Raise (Uncaught exc), w)
  end.

Definition read (file : UploadFile) : M (list byte) := λ w,
  lift (read_upload w file) w.

Definition write (path : string) (content : list byte) : M () := λ w,
  match write_file w path content with
  | Ok _ => (Ok (), log (Wrote path content) {| disk := <[path := content]> (disk w); trace := trace w |})
  | Raise exc => (Raise (Uncaught exc), w)
  end.

Definition close (path : string) : M () := λ w,
  match close_file w path with
  | Ok _ => (Ok (), log (Closed path) w)
  | Raise exc => (Raise (Uncaught exc), w)
  end.

(** A service method applied to the files on disk; services return a
    dictionary on every path.  This is the call of a service that only reads:
    the OpenCV service, and the liveness service, whose detector backend
    loads no model weights. *)
Definition call (service : string) (args : list string) (method : files → dict)
  : M dict := λ w,
  let result := method (disk w) in (Ok result, log (Called service args result) w).

(** The call of a service whose library may write files: the disk after the
    call is the one the library [leaves]. *)
Definition call_writing (service : string) (args : list string)
    (method : files → dict) (leaves : files → files) : M dict := λ w,
  let result := method (disk w) in
  (Ok result,
   log (Called service args result) {| disk := leaves (disk w); trace := trace w |}).

(** [try: os.unlink(path) except OSError: logger.warning(...)]. *)
Definition unlink (path : string) : M () := λ w,
  if unlink_file w path
  then (Ok (), log (Unlinked path true) {| disk := delete path (disk w); trace := trace w |})
  else (Ok (), log (Unlinked path false) w).

End effects.

(** [try: body except HTTPException: raise
     except Exception as exc: raise HTTPException(500, detail=str(exc))]:
    an exception that does not derive from [Exception] passes. *)
Definition try_except {A} (body : M A) : M A := λ w,
  match body w with
  | (Raise (Uncaught (Derived exc)), w') =>
      (Raise (HTTPException HTTP_500_INTERNAL_SERVER_ERROR (PyStr (str exc))), w')
  | outcome => outcome
  end.

(** [try: body finally: cleanup]: the cleanup runs on every outcome of the
    body; an exception of the cleanup would replace that outcome. *)
Definition try_finally {A} (body : M A) (cleanup : M ()) : M A := λ w,
  let '(outcome, w1) := body w in
  let '(cleaned, w2) := cleanup w1 in
  (match cleaned with Ok _ => outcome | Raise e => Raise e end, w2).

(** The set [{"image/jpeg", "image/png"}]; a missing content type ([None])
    is not in it. *)
Definition supported : gset (option string) :=
  {[ Some "image/jpeg"; Some "image/png" ]}.

(** The three router files define [_validate_image] with the same body; it
    is embedded once. *)

Definition _validate_image (file : UploadFile) : M () :=
  if bool_decide (content_type file ∉ supported)
  then raise (HTTPException HTTP_400_BAD_REQUEST
                (PyStr "Unsupported file type. Only JPEG and PNG are allowed."))
  else mret ().

(** The detail of a rejected upload. *)
Definition unsupported_file_type : raised :=
  HTTPException HTTP_400_BAD_REQUEST
    (PyStr "Unsupported file type. Only JPEG and PNG are allowed.").

(** An event that neither creates nor unlinks a file. *)
Definition quiet (e : event) : Prop :=
  match e with
  | Created _ | Unlinked _ _ => False
  | _ => True
  end.

End http.

Import http.

(* ===================================================================== *)
(** * app/routers/face_extraction.py *)
(* ===================================================================== *)

Module face_extraction.
Section router.
Context {os : OS} {cv : cv2.API}.

Definition extract_face (document : UploadFile) : M dict :=
  _validate_image document ;;
  tmp_file ← NamedTemporaryFile;
  try_finally
    (try_except
       (content ← read document;
        write tmp_file content ;;
        close tmp_file ;;
        result ← call "extract_face_from_document" [tmp_file]
                   (λ fs, OpenCVService.extract_face_from_document fs tmp_file);
        if negb (truthy (get result "success"))
        then raise (HTTPException HTTP_400_BAD_REQUEST
                      (get_default result "message" (PyStr "Face extraction failed")))
        else mret result))
    (unlink tmp_file).

End router.
End face_extraction.

(* ===================================================================== *)
(** * app/routers/liveness.py *)
(* ===================================================================== *)

Module liveness.
Section router.
Context {os : OS} {df : DeepFace.API} {cv : cv2.API} {npy : numpy.API}.

Definition detect_liveness (photo : UploadFile) : M dict :=
  _validate_image photo ;;
  tmp_file ← NamedTemporaryFile;
  try_finally
    (try_except
       (content ← read photo;
        write tmp_file content ;;
        close tmp_file ;;
        result ← call "detect_liveness" [tmp_file]
                   (λ fs, DeepFaceService.detect_liveness fs tmp_file);
        if eq_str (get result "message") "No face detected"
        then raise (HTTPException HTTP_400_BAD_REQUEST (get result "message"))
        else mret result))
    (unlink tmp_file).

End router.
End liveness.

(* ===================================================================== *)
(** * app/routers/face_verification.py *)
(* ===================================================================== *)

Module face_verification.
Section router.
Context {os : OS} {df : DeepFace.API}.

Definition verify_face (live_photo document_photo : UploadFile) : M dict :=
  _validate_image live_photo ;;
  _validate_image document_photo ;;
  live_tmp ← NamedTemporaryFile;
  doc_tmp ← NamedTemporaryFile;
  try_finally
    (try_except
       (live_content ← read live_photo;
        doc_content ← read document_photo;
        write live_tmp live_content ;;
        write doc_tmp doc_content ;;
        close live_tmp ;;
        close doc_tmp ;;
        result ← call_writing "verify_faces" [live_tmp; doc_tmp]
                   (λ fs, DeepFaceService.verify_faces fs live_tmp doc_tmp)
                   (λ fs, DeepFace.files_after_verify fs live_tmp doc_tmp
                            DeepFaceService.MODEL_NAME DeepFaceService.DETECTOR_BACKEND);
        if truthy (get result "error")
        then raise (HTTPException HTTP_400_BAD_REQUEST (get result "error"))
        else mret result))
    (unlink live_tmp ;; unlink doc_tmp).

End router.
End face_verification.

(* ===================================================================== *)
(** * app/models/schemas.py *)
(* ===================================================================== *)

Module schemas.

(** The annotations of the response models: [bool], [float], [int], [str]
    and [str | None]. *)
Inductive annotation :=
| Bool
| Float
| Int
| Str
| OptionalStr.

(** A field of a model: [Field(...)] is required, [Field(None, ...)] is not
    and defaults to [None]. *)
Record field := {
  name : string;
  kind : annotation;
  required : bool;
}.

Definition FaceVerificationResponse : list field := [
  {| name := "verified"; kind := Bool; required := true |};
  {| name := "confidence"; kind := Float; required := true |};
  {| name := "distance"; kind := Float; required := true |};
  {| name := "model"; kind := Str; required := true |};
  {| name := "threshold"; kind := Float; required := true |} ].

Definition FaceExtractionResponse : list field := [
  {| name := "success"; kind := Bool; required := true |};
  {| name := "face_found"; kind := Bool; required := true |};
  {| name := "face_base64"; kind := OptionalStr; required := false |};
  {| name := "face_count"; kind := Int; required := true |};
  {| name := "message"; kind := Str; required := true |} ].

Definition LivenessDetectionResponse : list field := [
  {| name := "is_live"; kind := Bool; required := true |};
  {| name := "confidence"; kind := Float; required := true |};
  {| name := "method"; kind := Str; required := true |};
  {| name := "message"; kind := Str; required := true |} ].

Definition ErrorResponse : list field := [
  {| name := "error"; kind := Str; required := true |};
  {| name := "detail"; kind := Str; required := true |} ].

(** The values an annotation takes as they are.  (Validation also converts
    some values of other types; the services never rely on that.) *)
Definition accepts (a : annotation) (v : pyval) : bool :=
  match a, v with
  | Bool, PyBool _ => true
  | Float, PyFloat _ => true
  | Int, PyInt _ => true
  | Str, PyStr _ => true
  | OptionalStr, (PyStr _ | PyNone) => true
  | _, _ => false
  end.

(** A dictionary validates against a model when every declared field is
    present with an accepted value, or absent and not required; keys the
    model does not declare are ignored. *)
Definition field_valid (d : dict) (f : field) : bool :=
  match d !! name f with
  | Some v => accepts (kind f) v
  | None => negb (required f)
  end.

Definition validates (model : list field) (d : dict) : bool :=
  forallb (field_valid d) model.

(** What is sent for a validated dictionary: the declared fields, an absent
    optional one as [None]. *)
Definition dump (model : list field) (d : dict) : dict :=
  list_to_map ((λ f, (name f, get d (name f))) <$> model).

End schemas.

(* ===================================================================== *)
(** * Sample libraries and requests for the closed examples *)
(* ===================================================================== *)

Module samples.

(** A blank BGR image of the given size, and its grey version. *)
Definition blank (rows cols : nat) : cv2.image :=
  replicate rows (replicate cols (0, 0, 0)).

Definition jpeg : list byte := ["J"; "F"; "I"; "F"]%byte.

(** A cv2 that reads every file as a blank 60x80 image, detects a 30x30 and
    a 35x35 face, and whose JPEG encoder reports [encoded]. *)
Definition cv2_two_faces (encoded : bool) : cv2.API := {|
  cv2.imread _ _ := Some (blank 60 80);
  cv2.cvtColor_BGR2GRAY img := List.map (List.map (λ _, 0)) img;
  cv2.equalizeHist gray := gray;
  cv2.detectMultiScale _ := Ok [(5, 5, 30, 30); (40, 10, 35, 35)];
  cv2.imencode _ _ := Ok (encoded, if encoded then jpeg else []);
  cv2.Laplacian_CV_64F gray := List.map (List.map (λ _, 0%float)) gray;
|}.

(** A DeepFace that answers every verification with [answer], and detects
    one face in every image; its model weights are in place. *)
Definition deepface_answering (answer : result exn DeepFace.verification)
  : DeepFace.API := {|
  DeepFace.verify _ _ _ _ _ := answer;
  DeepFace.files_after_verify fs _ _ _ _ := fs;
  DeepFace.extract_faces _ _ _ := Ok [(10, 10, 40, 40)];
|}.

(** A matching pair: distance 0.25 under the threshold 0.6875. *)
Definition matching : DeepFace.verification := {|
  DeepFace.verified := Some true;
  DeepFace.distance := Some 0.25%float;
  DeepFace.threshold := Some 0.6875%float;
|}.

(** Rounding to [ndigits] decimals as [rint(x * 10^ndigits) / 10^ndigits],
    halves going to the even neighbour. *)
Definition float_of_Z (n : Z) : float :=
  SF2Prim (SpecFloat.binary_normalize prec emax n 0 false).

Definition half_even (m k : Z) : Z :=
  let q := Z.shiftr m k in
  let r := m - Z.shiftl q k in
  let half := Z.shiftl 1 (k - 1) in
  if r <? half then q
  else if half <? r then q + 1
  else if Z.even q then q else q + 1.

Definition rint (x : float) : float :=
  match Prim2SF x with
  | SpecFloat.S754_finite s m e =>
      if 0 <=? e then x
      else
        let n := float_of_Z (half_even (Z.pos m) (- e)) in
        if s then (- n)%float else n
  | _ => x
  end.

Definition round (x : float) (ndigits : Z) : float :=
  let scale := float_of_Z (10 ^ ndigits) in
  (rint (x * scale) / scale)%float.

(** A numpy that measures a Laplacian variance of 80 and a mean grey level
    of 120 on every image. *)
Definition numpy_sharp_and_lit : numpy.API := {|
  numpy.var _ := 80%float;
  numpy.mean _ := 120%float;
  numpy.round := round;
|}.

(** An operating system on which nothing fails: temporary files are named
    [/tmp/tmp0.jpg], then [/tmp/tmp1.jpg]. *)
Definition os_reliable : OS := {|
  mkstemp w :=
    match disk w !! "/tmp/tmp0.jpg" with
    | None => Ok "/tmp/tmp0.jpg"
    | Some _ => Ok "/tmp/tmp1.jpg"
    end;
  read_upload _ file := Ok (body file);
  write_file _ _ _ := Ok ();
  close_file _ _ := Ok ();
  unlink_file _ _ := true;
|}.

(** An operating system with room for a single further temporary file: the
    second creation fails. *)
Definition os_one_file_left : OS := {|
  mkstemp w :=
    match disk w !! "/tmp/tmp0.jpg" with
    | None => Ok "/tmp/tmp0.jpg"
    | Some _ => Raise (OSError "[Errno 24] Too many open files")
    end;
  read_upload _ file := Ok (body file);
  write_file _ _ _ := Ok ();
  close_file _ _ := Ok ();
  unlink_file _ _ := true;
|}.

Definition jpeg_upload (name : string) : UploadFile := {|
  filename := name;
  content_type := Some "image/jpeg";
  body := jpeg;
|}.

Definition pdf_upload : UploadFile := {|
  filename := "passport.pdf";
  content_type := Some "application/pdf";
  body := jpeg;
|}.

Definition idle : world := {| disk := ∅; trace := [] |}.

Definition document_path : string := "/tmp/tmpdoc.jpg".
Definition disk_with_document : files := {[ document_path := jpeg ]}.

End samples.

Module more_samples.

(** A DeepFace whose calls all raise [exc]. *)
Definition deepface_raising (exc : exn) : DeepFace.API := {|
  DeepFace.verify _ _ _ _ _ := Raise exc;
  DeepFace.files_after_verify fs _ _ _ _ := fs;
  DeepFace.extract_faces _ _ _ := Raise exc;
|}.

(** A DeepFace that answers every verification with [answer] after
    downloading the weights of its model. *)
Definition weights_path : string := "/root/.deepface/weights/arcface_weights.h5".

Definition deepface_downloading (answer : DeepFace.verification) : DeepFace.API := {|
  DeepFace.verify _ _ _ _ _ := Ok answer;
  DeepFace.files_after_verify fs _ _ _ _ := <[weights_path := samples.jpeg]> fs;
  DeepFace.extract_faces _ _ _ := Ok [(10, 10, 40, 40)];
|}.

(** An operating system on which the request is cancelled while the upload
    is read. *)
Definition os_cancelled : OS := {|
  mkstemp w :=
    match disk w !! "/tmp/tmp0.jpg" with
    | None => Ok "/tmp/tmp0.jpg"
    | Some _ => Ok "/tmp/tmp1.jpg"
    end;
  read_upload _ _ := Raise (CancelledError "");
  write_file _ _ _ := Ok ();
  close_file _ _ := Ok ();
  unlink_file _ _ := true;
|}.

(** Two detections whose int32 products wrap around. *)
Definition huge_detection : cv2.rect := (0, 0, 65536, 65536).
Definition small_detection : cv2.rect := (0, 0, 10, 10).

Definition png_upload (name : string) (content : list byte) : UploadFile := {|
  filename := name;
  content_type := Some "image/png";
  body := content;
|}.

(** A disk that already holds an unrelated file. *)
Definition busy : world := {|
  disk := {[ "/srv/kyc/audit.log" := samples.jpeg ]};
  trace := [];
|}.

End more_samples.

(* ===================================================================== *)
(** * Facts about the padding of a detection *)
(* ===================================================================== *)

Section padding.

Lemma int_of_product_fifth n : int_of_product n (1 # 5) = n ÷ 5.
Proof. unfold int_of_product. simpl. by rewrite Z.mul_1_r. Qed.

Lemma int_of_product_fifth_nonneg n : 0 ≤ n → 0 ≤ int_of_product n (1 # 5).
Proof. intros Hn. rewrite int_of_product_fifth. apply Z.quot_pos; lia. Qed.

(** The padded box written out: a fifth of each side is added on both sides,
    then the box is clamped to the image. *)
Lemma add_padding_fifth height width channels x y w h :
  OpenCVService._add_padding (height, width, channels) (x, y, w, h) (1 # 5)
  = (Z.max 0 (x - w ÷ 5),
     Z.max 0 (y - h ÷ 5),
     Z.min (width - Z.max 0 (x - w ÷ 5)) (w + 2 * (w ÷ 5)),
     Z.min (height - Z.max 0 (y - h ÷ 5)) (h + 2 * (h ÷ 5))).
Proof. unfold OpenCVService._add_padding. by rewrite !int_of_product_fifth. Qed.

(** One axis of the padded box: the padded interval stays in [0, size] and
    covers the interval of the detection. *)
Lemma padded_interval size x w :
  0 ≤ x → 0 < w → x + w ≤ size →
  let x' := Z.max 0 (x - w ÷ 5) in
  let w' := Z.min (size - x') (w + 2 * (w ÷ 5)) in
  (0 ≤ x' ∧ x' + w' ≤ size) ∧ (x' ≤ x ∧ x + w ≤ x' + w').
Proof.
  intros Hx Hw Hxw x' w'.
  assert (0 ≤ w ÷ 5) by (apply Z.quot_pos; lia).
  lia.
Qed.

End padding.

(* ===================================================================== *)
(** * binary64: [int(float(w) * 0.2)] *)
(* ===================================================================== *)

Section binary64.

Lemma digits2_pos_size p : digits2_pos p = Pos.size p.
Proof. induction p; simpl; congruence. Qed.

Lemma digits2_log2 p : Z.pos (digits2_pos p) = Z.log2 (Z.pos p) + 1.
Proof.
  rewrite digits2_pos_size. destruct p; simpl; try lia.
Qed.

Lemma digits2_bounds p :
  2 ^ (Z.pos (digits2_pos p) - 1) ≤ Z.pos p < 2 ^ Z.pos (digits2_pos p).
Proof.
  rewrite digits2_log2. replace (Z.log2 (Z.pos p) + 1 - 1) with (Z.log2 (Z.pos p)) by lia.
  replace (Z.log2 (Z.pos p) + 1) with (Z.succ (Z.log2 (Z.pos p))) by lia.
  apply Z.log2_spec. lia.
Qed.

Lemma shr_1_half mrs : 0 ≤ shr_m mrs → shr_m (shr_1 mrs) = shr_m mrs / 2.
Proof.
  destruct mrs as [m r s]. simpl. intros Hm.
  destruct m as [|[p|p|]|p]; cbn [shr_m shr_1]; try lia; try reflexivity.
  - apply Z.div_unique with 1; lia.
  - apply Z.div_unique with 0; lia.
Qed.

Lemma shr_iter_div n : ∀ mrs, 0 ≤ shr_m mrs →
  shr_m (SpecFloat.iter_pos shr_1 n mrs) = shr_m mrs / 2 ^ Z.pos n.
Proof.
  induction n as [n IH|n IH|]; intros mrs Hm; simpl SpecFloat.iter_pos.
  - assert (H1 : 0 ≤ shr_m (shr_1 mrs)) by (rewrite shr_1_half by done; apply Z.div_pos; lia).
    assert (H2 : 0 ≤ shr_m (SpecFloat.iter_pos shr_1 n (shr_1 mrs))) by (rewrite IH by done; apply Z.div_pos; lia).
    rewrite IH by done. rewrite IH by done. rewrite shr_1_half by done.
    rewrite !Z.div_div by lia. f_equal.
    replace (2 ^ Z.pos n~1) with (2 * (2 ^ Z.pos n * 2 ^ Z.pos n)); [lia|].
    rewrite <- Z.pow_add_r, <- Z.pow_succ_r by lia. f_equal. lia.
  - assert (H2 : 0 ≤ shr_m (SpecFloat.iter_pos shr_1 n mrs)) by (rewrite IH by done; apply Z.div_pos; lia).
    rewrite IH by done. rewrite IH by done.
    rewrite !Z.div_div by lia. f_equal.
    rewrite <- Z.pow_add_r by lia. f_equal. lia.
  - rewrite shr_1_half by done. reflexivity.
Qed.

(** No rounding happens to a mantissa of at most 53 bits in the normal range. *)
Lemma binary_round_aux_exact (m : positive) e :
  Z.pos (digits2_pos m) ≤ 53 →
  -1074 ≤ e ≤ 971 →
  binary_round_aux 53 1024 false (Z.pos m) e loc_Exact = S754_finite false m e.
Proof.
  intros Hd He.
  unfold binary_round_aux, shr_fexp, shr, fexp, emin.
  cbn [Zdigits2 shr_record_of_loc].
  assert (Hshift : Z.max (Z.pos (digits2_pos m) + e - 53) (3 - 1024 - 53) - e ≤ 0) by lia.
  destruct (Z.max (Z.pos (digits2_pos m) + e - 53) (3 - 1024 - 53) - e) eqn:Hs; try lia.
  - cbn [shr_m loc_of_shr_record round_nearest_even Zdigits2 shr_record_of_loc].
    rewrite Hs. cbn [shr_m].
    destruct (Z.leb_spec e (1024 - 53)); [done|lia].
  - cbn [shr_m loc_of_shr_record round_nearest_even Zdigits2 shr_record_of_loc].
    rewrite Hs. cbn [shr_m].
    destruct (Z.leb_spec e (1024 - 53)); [done|lia].
Qed.

Lemma shr_pos mrs e n : 0 < n →
  shr mrs e n = (SpecFloat.iter_pos shr_1 (Z.to_pos n) mrs, e + n).
Proof. intros Hn. destruct n; try lia. reflexivity. Qed.

Lemma shr_nonpos mrs e n : n ≤ 0 → shr mrs e n = (mrs, e).
Proof. intros Hn. destruct n; try lia; reflexivity. Qed.

Lemma round_nearest_even_bounds q l :
  q ≤ round_nearest_even q l ≤ q + 1.
Proof.
  destruct l as [|[]]; simpl; try lia.
  destruct (Z.even q); lia.
Qed.

Lemma pos_iter_xO p q : Z.pos (Pos.iter xO p q) = Z.pos p * 2 ^ Z.pos q.
Proof.
  induction q as [|q IH] using Pos.peano_ind.
  - simpl. lia.
  - rewrite Pos.iter_succ, Pos2Z.inj_xO, IH, Pos2Z.inj_succ, Z.pow_succ_r by lia. lia.
Qed.

Lemma digits2_pos_iter_xO p q :
  Z.pos (digits2_pos (Pos.iter xO p q)) = Z.pos (digits2_pos p) + Z.pos q.
Proof.
  induction q as [|q IH] using Pos.peano_ind.
  - simpl. lia.
  - rewrite Pos.iter_succ. cbn [digits2_pos]. rewrite Pos2Z.inj_succ, IH. lia.
Qed.

(** [float(n)] of a positive integer below 2^53: the integer itself, its
    mantissa shifted up to 53 bits. *)
Lemma binary_normalize_exact (p : positive) :
  let d := Z.pos (digits2_pos p) in
  d ≤ 53 →
  ∃ m, binary_normalize 53 1024 (Z.pos p) 0 false = S754_finite false m (d - 53)
            ∧ Z.pos m = Z.pos p * 2 ^ (53 - d)
            ∧ Z.pos (digits2_pos m) = 53.
Proof.
  intros d Hd. unfold binary_normalize, binary_round, shl_align, fexp, emin.
  fold d. replace (Z.max (d + 0 - 53) (3 - 1024 - 53) - 0) with (d - 53) by lia.
  replace (Z.max (d + 0 - 53) (3 - 1024 - 53)) with (d - 53) by lia.
  destruct (d - 53) as [|q|q] eqn:Hq; try lia.
  - exists p. rewrite binary_round_aux_exact by (fold d; lia).
    replace (53 - d) with 0 by lia. split_and!; [done|lia|fold d; lia].
  - exists (Pos.iter xO p q).
    assert (Hdigits : Z.pos (digits2_pos (Pos.iter xO p q)) = 53).
    { rewrite digits2_pos_iter_xO. fold d. lia. }
    rewrite binary_round_aux_exact by lia.
    split_and!; [done| |done].
    rewrite pos_iter_xO. f_equal. f_equal. lia.
Qed.

(** Rounding a longer mantissa in the normal range: the result keeps one of
    the two neighbours of the exact quotient. *)
Lemma binary_round_aux_faithful (m : positive) e :
  let d := Z.pos (digits2_pos m) in
  53 < d → -1074 ≤ e → d + e ≤ 1000 →
  ∃ m' e',
    binary_round_aux 53 1024 false (Z.pos m) e loc_Exact = S754_finite false m' e'
    ∧ d - 53 ≤ e' - e ≤ d - 52
    ∧ Z.pos m / 2 ^ (e' - e) ≤ Z.pos m' ≤ Z.pos m / 2 ^ (e' - e) + 1.
Proof.
  intros d Hd He Hde.
  pose proof (digits2_bounds m) as Hm. fold d in Hm.
  unfold binary_round_aux, shr_fexp, fexp, emin.
  cbn [Zdigits2 shr_record_of_loc]. fold d.
  replace (Z.max (d + e - 53) (3 - 1024 - 53) - e) with (d - 53) by lia.
  rewrite shr_pos by lia.
  set (mrs := SpecFloat.iter_pos shr_1 (Z.to_pos (d - 53))
                {| shr_m := Z.pos m; shr_r := false; shr_s := false |}).
  assert (Hq : shr_m mrs = Z.pos m / 2 ^ (d - 53)).
  { unfold mrs. rewrite shr_iter_div by (simpl; lia).
    cbn [shr_m]. rewrite Z2Pos.id by lia. reflexivity. }
  assert (Hqrange : 2 ^ 52 ≤ shr_m mrs < 2 ^ 53).
  { rewrite Hq. split.
    - apply Z.div_le_lower_bound; [lia|].
      rewrite <- Z.pow_add_r by lia. replace (d - 53 + 52) with (d - 1) by lia. lia.
    - apply Z.div_lt_upper_bound; [lia|].
      rewrite <- Z.pow_add_r by lia. replace (d - 53 + 53) with d by lia. lia. }
  pose proof (round_nearest_even_bounds (shr_m mrs) (loc_of_shr_record mrs)) as Hround.
  set (m1 := round_nearest_even (shr_m mrs) (loc_of_shr_record mrs)) in *.
  destruct m1 as [|p1|p1] eqn:Hm1; try lia.
  cbn [Zdigits2 shr_record_of_loc].
  pose proof (digits2_bounds p1) as Hp1.
  set (d1 := Z.pos (digits2_pos p1)) in *.
  assert (Hd1 : d1 = 53 \/ d1 = 54).
  { assert (52 < d1) by (apply (Z.pow_lt_mono_r_iff 2); lia).
    assert (d1 - 1 < 54) by (apply (Z.pow_lt_mono_r_iff 2); [lia|lia|];
      change (2 ^ 54) with (2 * 2 ^ 53); lia).
    lia. }
  destruct Hd1 as [Hd1|Hd1]; rewrite Hd1.
  - rewrite shr_nonpos by lia. cbn [shr_m].
    destruct (Z.leb_spec (e + (d - 53)) (1024 - 53)); [|lia].
    exists p1, (e + (d - 53)). split_and!; [done|lia|lia| |].
    + replace (e + (d - 53) - e) with (d - 53) by lia. lia.
    + replace (e + (d - 53) - e) with (d - 53) by lia. lia.
  - rewrite shr_pos by lia.
    replace (Z.max (54 + (e + (d - 53)) - 53) (3 - 1024 - 53) - (e + (d - 53))) with 1 by lia.
    cbn [Z.to_pos SpecFloat.iter_pos].
    rewrite shr_1_half by (simpl; lia). cbn [shr_m].
    assert (Hp1eq : Z.pos p1 = 2 ^ 53).
    { rewrite Hd1 in Hp1. change (54 - 1) with 53 in Hp1. lia. }
    assert (Hhalf : Z.pos p1 / 2 = 2 ^ 52) by (by rewrite Hp1eq).
    rewrite Hhalf. change (2 ^ 52) with (Z.pos (2 ^ 52)%positive).
    destruct (Z.leb_spec (e + (d - 53) + 1) (1024 - 53)); [|lia].
    exists (2 ^ 52)%positive, (e + (d - 53) + 1). split_and!; [done|lia|lia| |].
    + replace (e + (d - 53) + 1 - e) with (d - 53 + 1) by lia.
      rewrite Z.pow_add_r, <- Z.div_div by lia. rewrite <- Hq.
      change (Z.pos (2 ^ 52)%positive) with (2 ^ 52). change (2 ^ 1) with 2.
      apply Z.div_le_upper_bound; lia.
    + replace (e + (d - 53) + 1 - e) with (d - 53 + 1) by lia.
      rewrite Z.pow_add_r, <- Z.div_div by lia. rewrite <- Hq.
      change (Z.pos (2 ^ 52)%positive) with (2 ^ 52). change (2 ^ 1) with 2.
      assert (2 ^ 52 ≤ shr_m mrs / 2 + 1); [|lia].
      assert (2 ^ 52 - 1 ≤ shr_m mrs / 2); [|lia].
      apply Z.div_le_lower_bound; lia.
Qed.

Lemma fifth_of_double : Prim2SF fifth = S754_finite false 7205759403792794 (-55).
Proof. reflexivity. Qed.

(** [int(float(w) * 0.2)] is [w // 5] for every non-negative 32-bit [w]:
    neither the rounding of 0.2 to a double nor the rounding of the product
    moves the value across an integer. *)
Lemma float64_fifth w :
  0 ≤ w < 2 ^ 31 →
  int_of_float (float_of_int w * fifth) = Some (w / 5).
Proof.
  intros Hw. unfold int_of_float, float_of_int.
  rewrite FloatAxioms.mul_spec, FloatAxioms.of_uint63_spec, fifth_of_double.
  rewrite Uint63.of_Z_spec, Z.mod_small by (change Uint63.wB with (2 ^ 63); lia).
  change prec with 53. change emax with 1024.
  destruct w as [|p|p]; [reflexivity| |lia].
  pose proof (digits2_bounds p) as Hp.
  set (d := Z.pos (digits2_pos p)) in *.
  assert (Hd : 1 ≤ d ≤ 31).
  { split; [unfold d; lia|].
    assert (d - 1 < 31) by (apply (Z.pow_lt_mono_r_iff 2); lia). lia. }
  destruct (binary_normalize_exact p) as (mw & -> & Hmw & Hdw); [fold d; lia|].
  fold d in Hmw.
  unfold SF64mul, SFmul. cbn [xorb].
  change FloatOps.prec with 53. change FloatOps.emax with 1024. fold d.
  set (C := 7205759403792794%positive).
  pose proof (digits2_bounds mw) as Hmwb. rewrite Hdw in Hmwb.
  change (53 - 1) with 52 in Hmwb.
  pose proof (digits2_bounds (mw * C)) as HM.
  set (D := Z.pos (digits2_pos (mw * C))) in *.
  assert (HMrange : 2 ^ 104 ≤ Z.pos (mw * C) < 2 ^ 106).
  { rewrite Pos2Z.inj_mul. unfold C. lia. }
  assert (HD : 105 ≤ D ≤ 106).
  { assert (104 < D) by (apply (Z.pow_lt_mono_r_iff 2); lia).
    assert (D - 1 < 106) by (apply (Z.pow_lt_mono_r_iff 2); lia). lia. }
  destruct (binary_round_aux_faithful (mw * C) (d - 53 + -55))
    as (m' & e' & -> & He' & Hm'); [fold D; lia..|].
  fold D in He'.
  set (n := e' - (d - 53 + -55)) in *.
  replace e' with (d - 108 + n) by (unfold n; lia).
  destruct (Z.leb_spec 0 (d - 108 + n)); [lia|].
  f_equal.
  replace (- (d - 108 + n)) with (108 - d - n) by lia.
  (* the integers involved *)
  set (P := 2 ^ (53 - d)) in *.
  set (N := 2 ^ n) in *.
  set (T := 2 ^ (108 - d - n)).
  set (K := Z.pos p / 5).
  assert (HP : 2 ^ 22 ≤ P) by (apply Z.pow_le_mono_r; lia).
  assert (HN : 0 < N ≤ 2 ^ 54) by (split; [apply Z.pow_pos_nonneg; lia|apply Z.pow_le_mono_r; lia]).
  assert (HT : 0 < T) by (apply Z.pow_pos_nonneg; lia).
  assert (HTN : T * N = P * 2 ^ 55).
  { unfold T, N, P. rewrite <- !Z.pow_add_r by lia. f_equal. lia. }
  assert (HK : 5 * K ≤ Z.pos p ≤ 5 * K + 4).
  { unfold K. pose proof (Z.div_mod (Z.pos p) 5). pose proof (Z.mod_pos_bound (Z.pos p) 5). lia. }
  assert (HKP : 5 * (K * P) ≤ Z.pos mw ≤ 5 * (K * P) + 4 * P) by nia.
  rewrite Pos2Z.inj_mul in Hm'. unfold C in Hm'.
  symmetry. apply Z.div_unique with (Z.pos m' - T * K).
  - left. split.
    + assert (K * T ≤ Z.pos mw * 7205759403792794 / N); [|lia].
      apply Z.div_le_lower_bound; [lia|].
      replace (N * (K * T)) with (K * P * 2 ^ 55) by (rewrite <- Z.mul_assoc, <- HTN; lia).
      lia.
    + assert (Z.pos mw * 7205759403792794 / N < (K + 1) * T - 1); [|lia].
      apply Z.div_lt_upper_bound; [lia|].
      replace (N * ((K + 1) * T - 1)) with (K * P * 2 ^ 55 + P * 2 ^ 55 - N)
        by (rewrite <- HTN; lia).
      lia.
  - lia.
Qed.

(** X2.  The padding of the model is the padding Python computes:
    [int(float(w) * 0.2)] in binary64 is [w // 5] for every non-negative
    32-bit [w]. *)
Theorem float64_padding_agrees w :
  0 ≤ w < 2 ^ 31 →
  int_of_float (float_of_int w * fifth) = Some (int_of_product w (1 # 5)).
Proof.
  intros Hw. rewrite float64_fifth by done.
  unfold int_of_product. simpl. rewrite Z.mul_1_r.
  by rewrite Z.quot_div_nonneg by lia.
Qed.

End binary64.

(* ===================================================================== *)
(** * Facts about slicing and cropping *)
(* ===================================================================== *)

Section slicing.
Context {A : Type}.
Implicit Types (l : list A) (a : np.ndarray A).

Lemma bound_inside n i : 0 ≤ i ≤ n → np.bound n i = i.
Proof.
  intros Hi. unfold np.bound.
  destruct (Z.ltb_spec i 0); lia.
Qed.

Lemma slice_inside l start stop :
  0 ≤ start ≤ stop → stop ≤ Z.of_nat (length l) →
  np.slice l start stop = take (Z.to_nat (stop - start)) (drop (Z.to_nat start) l).
Proof.
  intros Hs Hl. unfold np.slice.
  by rewrite !bound_inside by lia.
Qed.

Lemma length_slice l start stop :
  0 ≤ start ≤ stop → stop ≤ Z.of_nat (length l) →
  Z.of_nat (length (np.slice l start stop)) = stop - start.
Proof.
  intros Hs Hl. rewrite slice_inside by done.
  rewrite length_take, length_drop. lia.
Qed.

Lemma lookup_slice l start stop (i : nat) :
  0 ≤ start ≤ stop → stop ≤ Z.of_nat (length l) →
  Z.of_nat i < stop - start →
  np.slice l start stop !! i = l !! (Z.to_nat start + i)%nat.
Proof.
  intros Hs Hl Hi. rewrite slice_inside by done.
  rewrite lookup_take_lt by lia. by rewrite lookup_drop.
Qed.

Lemma slice_rows_subset a start stop row :
  row ∈ np.slice a start stop → row ∈ a.
Proof.
  unfold np.slice. intros Hin.
  eapply subseteq_drop, subseteq_take, Hin.
Qed.

End slicing.

Section cropping.

(** A box inside a rectangular image is cropped to exactly its own size, and
    the crop holds the image's pixels at the box's offset. *)
Lemma crop_inside (image : cv2.image) x y w h :
  np.rectangular image →
  0 ≤ x → 0 ≤ y → 0 < w → 0 < h →
  x + w ≤ np.width image → y + h ≤ np.height image →
  np.height (OpenCVService.crop image (x, y, w, h)) = h
  ∧ np.width (OpenCVService.crop image (x, y, w, h)) = w
  ∧ np.rectangular (OpenCVService.crop image (x, y, w, h))
  ∧ ∀ i j : nat, Z.of_nat i < h → Z.of_nat j < w →
      (OpenCVService.crop image (x, y, w, h) !! i) ≫= (.!! j)
      = (image !! (Z.to_nat y + i)%nat) ≫= (.!! (Z.to_nat x + j)%nat).
Proof.
  intros Hrect Hx Hy Hw Hh Hxw Hyh.
  unfold OpenCVService.crop, np.slice2.
  unfold np.rectangular in Hrect. rewrite Forall_forall in Hrect.
  assert (Hrows : ∀ row, row ∈ np.slice image y (y + h) →
                    Z.of_nat (length (np.slice row x (x + w))) = w).
  { intros row Hin. apply slice_rows_subset in Hin.
    specialize (Hrect row Hin). rewrite length_slice; lia. }
  assert (Hheight : Z.of_nat (length (np.slice image y (y + h))) = h).
  { rewrite length_slice; unfold np.height in *; lia. }
  assert (Hwidth : np.width ((λ row, np.slice row x (x + w)) <$> np.slice image y (y + h)) = w).
  { destruct (np.slice image y (y + h)) as [|row rows] eqn:Hs; simpl in *; [lia|].
    apply Hrows. left. }
  split_and!.
  - unfold np.height. rewrite length_fmap. exact Hheight.
  - exact Hwidth.
  - unfold np.rectangular. rewrite Hwidth.
    apply Forall_fmap, Forall_forall. intros row Hin. simpl. by apply Hrows.
  - intros i j Hi Hj. rewrite list_lookup_fmap.
    rewrite lookup_slice by (unfold np.height in *; lia).
    destruct (image !! (Z.to_nat y + i)%nat) as [row|] eqn:Hrow; simpl; [|done].
    apply lookup_slice; [lia| |lia].
    rewrite (Hrect row); [lia|]. eapply list_elem_of_lookup_2, Hrow.
Qed.

End cropping.

(* ===================================================================== *)
(** * [_add_padding]: the padded box *)
(* ===================================================================== *)

Section padded_box.

(** C9.  For an image shape with positive height and width and a detection
    [(x, y, w, h)] lying in the image ([x >= 0], [y >= 0], [w > 0], [h > 0],
    [x + w <= width], [y + h <= height]), [_add_padding] with ratio 0.2
    returns a box that lies in the image and contains the detection. *)
Theorem add_padding_inside_image_and_around_box height width channels x y w h :
  0 < height → 0 < width →
  0 ≤ x → 0 ≤ y → 0 < w → 0 < h →
  x + w ≤ width → y + h ≤ height →
  let '(x', y', w', h') :=
    OpenCVService._add_padding (height, width, channels) (x, y, w, h) (1 # 5) in
  (0 ≤ x' ∧ 0 ≤ y' ∧ x' + w' ≤ width ∧ y' + h' ≤ height)
  ∧ (x' ≤ x ∧ y' ≤ y ∧ x + w ≤ x' + w' ∧ y + h ≤ y' + h').
Proof.
  intros Hheight Hwidth Hx Hy Hw Hh Hxw Hyh.
  rewrite add_padding_fifth.
  pose proof (padded_interval width x w Hx Hw Hxw) as Hhorizontal.
  pose proof (padded_interval height y h Hy Hh Hyh) as Hvertical.
  cbv zeta in Hhorizontal, Hvertical. lia.
Qed.

Lemma add_padding_inside_image_and_around_box_witness :
  let '(x', y', w', h') :=
    OpenCVService._add_padding (480, 640, 3) (100, 50, 200, 200) (1 # 5) in
  (0 ≤ x' ∧ 0 ≤ y' ∧ x' + w' ≤ 640 ∧ y' + h' ≤ 480)
  ∧ (x' ≤ 100 ∧ y' ≤ 50 ∧ 100 + 200 ≤ x' + w' ∧ 50 + 200 ≤ y' + h').
Proof.
  apply (add_padding_inside_image_and_around_box 480 640 3 100 50 200 200); lia.
Defined.

(** X1.  The padded box of a detection in a rectangular image is cropped to
    exactly its own size, pixel for pixel: the crop never leaves the image. *)
Lemma padded_crop_inside_image (image : cv2.image) x y w h :
  np.rectangular image →
  0 ≤ x → 0 ≤ y → 0 < w → 0 < h →
  x + w ≤ np.width image → y + h ≤ np.height image →
  let box := OpenCVService._add_padding (cv2.shape image) (x, y, w, h) (1 # 5) in
  let '(x', y', w', h') := box in
  np.height (OpenCVService.crop image box) = h'
  ∧ np.width (OpenCVService.crop image box) = w'
  ∧ w ≤ w' ∧ h ≤ h'
  ∧ ∀ i j : nat, Z.of_nat i < h' → Z.of_nat j < w' →
      (OpenCVService.crop image box !! i) ≫= (.!! j)
      = (image !! (Z.to_nat y' + i)%nat) ≫= (.!! (Z.to_nat x' + j)%nat).
Proof.
  intros Hrect Hx Hy Hw Hh Hxw Hyh.
  pose proof (padded_interval (np.width image) x w Hx Hw Hxw) as Hhorizontal.
  pose proof (padded_interval (np.height image) y h Hy Hh Hyh) as Hvertical.
  cbv zeta in Hhorizontal, Hvertical.
  unfold cv2.shape. rewrite add_padding_fifth. cbv zeta.
  set (x' := Z.max 0 (x - w ÷ 5)) in *.
  set (y' := Z.max 0 (y - h ÷ 5)) in *.
  set (w' := Z.min (np.width image - x') (w + 2 * (w ÷ 5))) in *.
  set (h' := Z.min (np.height image - y') (h + 2 * (h ÷ 5))) in *.
  destruct (crop_inside image x' y' w' h') as (Hh'&Hw'&_&Hpix); [done|lia..|].
  split_and!; [done|done|lia|lia|done].
Qed.

End padded_box.

(* ===================================================================== *)
(** * [OpenCVService.extract_face_from_document] *)
(* ===================================================================== *)

Section extraction.

(** [max(first :: rest, key)] is an element of the list with a maximal key. *)
Lemma max_by_spec {A} (key : A → Z) (rest : list A) (best : A) :
  max_by key best rest ∈ best :: rest
  ∧ ∀ item, item ∈ best :: rest → key item ≤ key (max_by key best rest).
Proof.
  revert best. induction rest as [|item rest IH]; intros best; simpl.
  - split; [left|]. by intros ? ->%list_elem_of_singleton.
  - destruct (IH (if key best <? key item then item else best)) as [Hin Hmax].
    split.
    + apply elem_of_cons in Hin as [->|Hin].
      * destruct (key best <? key item); [right; left | left].
      * by do 2 right.
    + intros other Hother.
      assert (key best ≤ key (max_by key (if key best <? key item then item else best) rest)
              ∧ key item ≤ key (max_by key (if key best <? key item then item else best) rest))
        as [Hbest Hitem].
      { pose proof (Hmax (if key best <? key item then item else best)) as Hcur.
        destruct (Z.ltb_spec (key best) (key item)); split;
          try (apply Hmax; by left); etrans; try (apply Hcur; by left); lia. }
      apply elem_of_cons in Hother as [->|Hother]; [done|].
      apply elem_of_cons in Hother as [->|Hother]; [done|].
      apply Hmax. by right.
Qed.

(** The int32 product of a detection whose area fits in 32 bits is the
    area. *)
Lemma area_of_int32 (face : cv2.rect) :
  - 2 ^ 31 ≤ OpenCVService.width_times_height face < 2 ^ 31 →
  OpenCVService.area face = OpenCVService.width_times_height face.
Proof.
  destruct face as [[[x y] w] h]. unfold OpenCVService.area, OpenCVService.width_times_height, np.int32.
  intros Hfits. rewrite Z.mod_small; lia.
Qed.

(** The area of a box that lies in an image of at most 2^30 pixels fits. *)
Lemma area_fits_int32 (height width x y w h : Z) :
  0 ≤ w ≤ width → 0 ≤ h ≤ height → width * height ≤ 2 ^ 30 →
  OpenCVService.area (x, y, w, h) = w * h.
Proof.
  intros Hw Hh Hpixels. apply (area_of_int32 (x, y, w, h)).
  unfold OpenCVService.width_times_height. nia.
Qed.

(** Ties go to the earliest detection. *)
Lemma max_by_keeps_best {A} (key : A → Z) (rest : list A) (best : A) :
  (∀ item, item ∈ rest → key item ≤ key best) → max_by key best rest = best.
Proof.
  revert best. induction rest as [|item rest IH]; intros best Hle; simpl; [done|].
  assert (key item ≤ key best) by (apply Hle; left).
  destruct (Z.ltb_spec (key best) (key item)); [lia|].
  apply IH. intros ? ?. apply Hle. by right.
Qed.

Lemma get_response_success s f b c m :
  get (OpenCVService.response s f b c m) "success" = PyBool s.
Proof. reflexivity. Qed.
Lemma get_response_face_found s f b c m :
  get (OpenCVService.response s f b c m) "face_found" = PyBool f.
Proof. reflexivity. Qed.
Lemma get_response_face_base64 s f b c m :
  get (OpenCVService.response s f b c m) "face_base64" = b.
Proof. reflexivity. Qed.
Lemma get_response_face_count s f b c m :
  get (OpenCVService.response s f b c m) "face_count" = PyInt c.
Proof. reflexivity. Qed.
Lemma get_response_message s f b c m :
  get (OpenCVService.response s f b c m) "message" = PyStr m.
Proof. reflexivity. Qed.

Context {cv : cv2.API}.

Lemma extract_face_outcome fs img_path :
  OpenCVService.extraction_outcome fs img_path
    (OpenCVService.extract_face_from_document fs img_path).
Proof.
  unfold OpenCVService.extract_face_from_document.
  destruct (OpenCVService.extract_face_try fs img_path) as [d|exc] eqn:Htry;
    [|by apply OpenCVService.library_error].
  revert Htry. unfold OpenCVService.extract_face_try.
  destruct (cv2.imread fs img_path) as [image|] eqn:Hread; simpl.
  2: { intros [= <-]. by apply OpenCVService.unreadable. }
  destruct (cv2.detectMultiScale _) as [[|first rest]|] eqn:Hdetect; simpl; [| |done].
  { intros [= <-]. by eapply OpenCVService.no_face. }
  destruct (cv2.imencode _ _) as [[[] buffer]|] eqn:Hencode; simpl; [| |done].
  - intros [= <-]. by eapply OpenCVService.extracted.
  - intros [= <-]. by eapply OpenCVService.not_encoded.
Qed.

(** C1, as amended.  When the image is readable, the detector reports at
    least one face, the area [w * h] of every detection fits in a signed
    32-bit integer (the key of the selection is an int32 product) and the
    JPEG encoder reports success on the crop, the service selects a
    detection of maximal area [w * h], pads it by a fifth of its sides
    clamped to the image, crops that box from the original image and returns
    success, the base64 text of the encoded crop, the number of detections
    and the message "Largest face extracted". *)
Theorem extract_face_returns_largest_face fs img_path image first rest buffer :
  cv2.imread fs img_path = Some image →
  cv2.detectMultiScale (cv2.equalizeHist (cv2.cvtColor_BGR2GRAY image))
    = Ok (first :: rest) →
  let faces := first :: rest in
  (∀ face, face ∈ faces → - 2 ^ 31 ≤ OpenCVService.width_times_height face < 2 ^ 31) →
  let largest := max_by OpenCVService.area first rest in
  let box := OpenCVService._add_padding (cv2.shape image) largest (1 # 5) in
  cv2.imencode ".jpg" (OpenCVService.crop image box) = Ok (true, buffer) →
  (largest ∈ faces
   ∧ ∀ face, face ∈ faces →
       OpenCVService.width_times_height face ≤ OpenCVService.width_times_height largest)
  ∧ (let '(x, y, w, h) := largest in
     box = (Z.max 0 (x - w ÷ 5),
            Z.max 0 (y - h ÷ 5),
            Z.min (np.width image - Z.max 0 (x - w ÷ 5)) (w + 2 * (w ÷ 5)),
            Z.min (np.height image - Z.max 0 (y - h ÷ 5)) (h + 2 * (h ÷ 5))))
  ∧ OpenCVService.extract_face_from_document fs img_path
    = {[ "success" := PyBool true;
         "face_found" := PyBool true;
         "face_base64" := PyStr (base64.b64encode buffer);
         "face_count" := PyInt (Z.of_nat (length faces));
         "message" := PyStr "Largest face extracted" ]}.
Proof.
  intros Hread Hdetect faces Hfit largest box Hencode.
  pose proof (max_by_spec OpenCVService.area rest first) as [Hin Hmax].
  split.
  { split; [done|]. intros face Hface.
    rewrite <- !area_of_int32 by auto. by apply Hmax. }
  split.
  - subst box. destruct largest as [[[x y] w] h].
    unfold cv2.shape. apply add_padding_fifth.
  - unfold OpenCVService.extract_face_from_document, OpenCVService.extract_face_try.
    unfold mbind, result_bind. rewrite Hread, Hdetect.
    subst box largest. cbv zeta. rewrite Hencode. reflexivity.
Qed.

(** C10.  Every dictionary the service returns carries a base64 text exactly
    when [success] is true; [success] implies [face_found]; and
    [face_found] false implies a [face_count] of 0.  A face that was detected
    but could not be encoded yields success false, face_found true, no
    base64 text and the number of detections. *)
Theorem extract_face_result_invariant fs img_path :
  let result := OpenCVService.extract_face_from_document fs img_path in
  (get result "face_base64" ≠ PyNone ↔ get result "success" = PyBool true)
  ∧ (get result "success" = PyBool true → get result "face_found" = PyBool true)
  ∧ (get result "face_found" = PyBool false → get result "face_count" = PyInt 0)
  ∧ (∀ image first rest buffer,
       cv2.imread fs img_path = Some image →
       cv2.detectMultiScale (cv2.equalizeHist (cv2.cvtColor_BGR2GRAY image))
         = Ok (first :: rest) →
       cv2.imencode ".jpg"
         (OpenCVService.crop image
            (OpenCVService._add_padding (cv2.shape image)
               (max_by OpenCVService.area first rest) (1 # 5))) = Ok (false, buffer) →
       result = {[ "success" := PyBool false;
                   "face_found" := PyBool true;
                   "face_base64" := PyNone;
                   "face_count" := PyInt (Z.of_nat (length (first :: rest)));
                   "message" := PyStr "Failed to encode face image" ]}).
Proof.
  intros result. split_and!.
  - subst result. destruct (extract_face_outcome fs img_path);
      rewrite get_response_face_base64, get_response_success; split; congruence.
  - subst result. destruct (extract_face_outcome fs img_path);
      rewrite get_response_face_found, get_response_success; congruence.
  - subst result. destruct (extract_face_outcome fs img_path);
      rewrite get_response_face_found, get_response_face_count; congruence.
  - intros image first rest buffer Hread Hdetect Hencode. subst result.
    unfold OpenCVService.extract_face_from_document, OpenCVService.extract_face_try.
    unfold mbind, result_bind. rewrite Hread, Hdetect.
    cbv zeta. rewrite Hencode. reflexivity.
Qed.

End extraction.

(** C1 applied to a sample library whose encoder succeeds: the 35x35 face is
    chosen over the 30x30 one. *)
Lemma extract_face_returns_largest_face_witness :
  let faces := [(5, 5, 30, 30); (40, 10, 35, 35)] in
  let largest := (40, 10, 35, 35) in
  let box := (33, 3, 47, 49) in
  (largest ∈ faces
   ∧ ∀ face, face ∈ faces →
       OpenCVService.width_times_height face ≤ OpenCVService.width_times_height largest)
  ∧ box = (Z.max 0 (40 - 35 ÷ 5),
           Z.max 0 (10 - 35 ÷ 5),
           Z.min (np.width (samples.blank 60 80) - Z.max 0 (40 - 35 ÷ 5)) (35 + 2 * (35 ÷ 5)),
           Z.min (np.height (samples.blank 60 80) - Z.max 0 (10 - 35 ÷ 5)) (35 + 2 * (35 ÷ 5)))
  ∧ @OpenCVService.extract_face_from_document (samples.cv2_two_faces true)
      samples.disk_with_document samples.document_path
    = {[ "success" := PyBool true;
         "face_found" := PyBool true;
         "face_base64" := PyStr "SkZJRg==";
         "face_count" := PyInt 2;
         "message" := PyStr "Largest face extracted" ]}.
Proof.
  apply (@extract_face_returns_largest_face (samples.cv2_two_faces true)
           samples.disk_with_document samples.document_path
           (samples.blank 60 80) (5, 5, 30, 30) [(40, 10, 35, 35)] samples.jpeg);
    [reflexivity|reflexivity| |reflexivity].
  intros face Hface.
  apply elem_of_cons in Hface as [->|Hface]; [split; [discriminate|reflexivity]|].
  apply elem_of_cons in Hface as [->|Hface]; [split; [discriminate|reflexivity]|].
  by apply elem_of_nil in Hface.
Defined.

(** The key of the selection is an int32 product: a detection of 65536 by
    65536 has key 0 and loses against one of 10 by 10. *)
Example largest_face_key_wraps :
  OpenCVService.area more_samples.huge_detection = 0
  ∧ OpenCVService.area more_samples.small_detection = 100
  ∧ max_by OpenCVService.area more_samples.huge_detection [more_samples.small_detection]
    = more_samples.small_detection.
Proof. split_and!; reflexivity. Qed.

(** C1 as stated fails when the encoder reports failure: the image is
    readable and two faces are detected, yet [success] is false. *)
Lemma extract_face_unencodable_counterexample :
  let cv := samples.cv2_two_faces false in
  let result :=
    @OpenCVService.extract_face_from_document cv
      samples.disk_with_document samples.document_path in
  @cv2.imread cv samples.disk_with_document samples.document_path
    = Some (samples.blank 60 80)
  ∧ @cv2.detectMultiScale cv
      (@cv2.equalizeHist cv (@cv2.cvtColor_BGR2GRAY cv (samples.blank 60 80)))
    = Ok [(5, 5, 30, 30); (40, 10, 35, 35)]
  ∧ get result "success" = PyBool false
  ∧ get result "face_base64" = PyNone
  ∧ get result "message" = PyStr "Failed to encode face image".
Proof. repeat split. Qed.

(* ===================================================================== *)
(** * [DeepFaceService.verify_faces] *)
(* ===================================================================== *)

Section verification.
Context {df : DeepFace.API}.

(** C2.  When the library call succeeds and reports distance [d], the
    result's confidence is [max(0.0, 1.0 - d)], that is [1 - d] clamped below
    at 0, its distance is [d], and its threshold and verified fields are the
    library's (0.0 and false when the library leaves them out). *)
Theorem verify_faces_confidence fs img1_path img2_path answer d :
  DeepFace.verify fs img1_path img2_path
    DeepFaceService.MODEL_NAME DeepFaceService.DETECTOR_BACKEND = Ok answer →
  DeepFace.distance answer = Some d →
  DeepFaceService.verify_faces fs img1_path img2_path
  = {[ "verified" := PyBool (default false (DeepFace.verified answer));
       "confidence" := PyFloat (pymax 0 (1 - d));
       "distance" := PyFloat d;
       "model" := PyStr "ArcFace";
       "threshold" := PyFloat (default 0%float (DeepFace.threshold answer)) ]}
  ∧ pymax 0 (1 - d) = (if PrimFloat.ltb 0 (1 - d) then 1 - d else 0)%float.
Proof.
  intros Hverify Hdistance. split; [|reflexivity].
  unfold DeepFaceService.verify_faces. rewrite Hverify, Hdistance. reflexivity.
Qed.

(** C3.  When the library call raises, [verify_faces] still returns a
    dictionary: it carries the key ["error"], set to "No face detected" for
    a [ValueError] and to the exception's message otherwise, with verified
    false, confidence 0.0, distance 1.0 and threshold 0.0. *)
Theorem verify_faces_error_marker fs img1_path img2_path exc :
  DeepFace.verify fs img1_path img2_path
    DeepFaceService.MODEL_NAME DeepFaceService.DETECTOR_BACKEND = Raise exc →
  DeepFaceService.verify_faces fs img1_path img2_path
  = {[ "verified" := PyBool false;
       "confidence" := PyFloat 0;
       "error" := PyStr (match exc with
                         | ValueError _ => "No face detected"
                         | _ => str exc
                         end);
       "distance" := PyFloat 1;
       "model" := PyStr "ArcFace";
       "threshold" := PyFloat 0 ]}.
Proof.
  intros Hverify. unfold DeepFaceService.verify_faces. rewrite Hverify.
  by destruct exc.
Qed.


End verification.

(** C2 at a library answer with distance 0.25: the confidence is 0.75. *)
Lemma verify_faces_confidence_witness :
  @DeepFaceService.verify_faces
    (samples.deepface_answering (Ok samples.matching))
    samples.disk_with_document "/tmp/live.jpg" "/tmp/doc.jpg"
  = {[ "verified" := PyBool true;
       "confidence" := PyFloat (pymax 0 (1 - 0.25));
       "distance" := PyFloat 0.25;
       "model" := PyStr "ArcFace";
       "threshold" := PyFloat 0.6875 ]}
  ∧ pymax 0 (1 - 0.25) = (if PrimFloat.ltb 0 (1 - 0.25) then 1 - 0.25 else 0)%float.
Proof.
  exact (@verify_faces_confidence
           (samples.deepface_answering (Ok samples.matching))
           samples.disk_with_document "/tmp/live.jpg" "/tmp/doc.jpg"
           samples.matching 0.25%float eq_refl eq_refl).
Defined.

(** C3 at a library that finds no face. *)
Lemma verify_faces_error_marker_witness :
  @DeepFaceService.verify_faces
    (samples.deepface_answering (Raise (ValueError "Face could not be detected")))
    samples.disk_with_document "/tmp/live.jpg" "/tmp/doc.jpg"
  = {[ "verified" := PyBool false;
       "confidence" := PyFloat 0;
       "error" := PyStr "No face detected";
       "distance" := PyFloat 1;
       "model" := PyStr "ArcFace";
       "threshold" := PyFloat 0 ]}.
Proof.
  exact (@verify_faces_error_marker
           (samples.deepface_answering (Raise (ValueError "Face could not be detected")))
           samples.disk_with_document "/tmp/live.jpg" "/tmp/doc.jpg"
           (ValueError "Face could not be detected") eq_refl).
Defined.


(* ===================================================================== *)
(** * [DeepFaceService.detect_liveness] *)
(* ===================================================================== *)

Section liveness_heuristics.
Context {df : DeepFace.API} {cv : cv2.API} {npy : numpy.API}.

Lemma half_blur_threshold : (DeepFaceService.BLUR_THRESHOLD * 0.5)%float = 50%float.
Proof. reflexivity. Qed.

(** [brightness_score > 0] says that the brightness is in range. *)
Lemma brightness_score_positive brightness :
  PrimFloat.ltb 0 (if DeepFaceService.well_lit brightness then 1 else 0)
  = DeepFaceService.well_lit brightness.
Proof. by destruct (DeepFaceService.well_lit brightness). Qed.

(** C4.  For a readable image in which a face is detected, the service
    computes two functions of the pixel buffer, the variance of the
    Laplacian of the grey image ([blur]) and the grey mean ([brightness]),
    and returns confidence [round((min(1, blur / 100) + b) / 2, 2)] with [b]
    1 if [60 <= brightness <= 200] and 0 otherwise; [is_live] is true exactly
    when [blur > 50] and [60 <= brightness <= 200]. *)
Theorem detect_liveness_heuristics fs img_path faces image :
  DeepFace.extract_faces fs img_path DeepFaceService.DETECTOR_BACKEND = Ok faces →
  faces ≠ [] →
  cv2.imread fs img_path = Some image →
  let result := DeepFaceService.detect_liveness fs img_path in
  let gray := cv2.cvtColor_BGR2GRAY image in
  let blur := numpy.var (cv2.Laplacian_CV_64F gray) in
  let brightness := numpy.mean gray in
  let in_range := PrimFloat.leb 60 brightness && PrimFloat.leb brightness 200 in
  let b := (if in_range then 1 else 0)%float in
  get result "confidence" = PyFloat (numpy.round ((pymin 1 (blur / 100) + b) / 2) 2)
  ∧ (get result "is_live" = PyBool true
     ↔ PrimFloat.ltb 50 blur = true
       ∧ PrimFloat.leb 60 brightness = true ∧ PrimFloat.leb brightness 200 = true)
  ∧ result
    = {[ "is_live" := PyBool (PrimFloat.ltb 50 blur && in_range);
         "confidence" := PyFloat (numpy.round ((pymin 1 (blur / 100) + b) / 2) 2);
         "method" := PyStr "basic_quality_check";
         "message" := PyStr (if PrimFloat.ltb 50 blur && in_range
                             then "Liveness indicators passed"
                             else "Liveness indicators weak") ]}.
Proof.
  intros Hfaces Hsome Hread result gray blur brightness in_range b.
  assert (Hresult : result = DeepFaceService.liveness
            (PrimFloat.ltb 50 blur && in_range)
            (numpy.round ((pymin 1 (blur / 100) + b) / 2) 2)
            (if PrimFloat.ltb 50 blur && in_range
             then "Liveness indicators passed" else "Liveness indicators weak")).
  { subst result. unfold DeepFaceService.detect_liveness, DeepFaceService.detect_liveness_try.
    unfold mbind, result_bind. rewrite Hfaces.
    destruct faces as [|face faces']; [done|].
    replace (Z.of_nat (length (face :: faces')) =? 0) with false
      by (symmetry; apply Z.eqb_neq; simpl; lia).
    rewrite Hread. cbv zeta.
    rewrite half_blur_threshold, brightness_score_positive.
    reflexivity. }
  rewrite Hresult. split_and!; [reflexivity| |reflexivity].
  change (get (DeepFaceService.liveness ?l ?c ?m) "is_live") with (PyBool l).
  split.
  - intros [= Hlive]. apply andb_prop in Hlive as [? Hrange].
    by apply andb_prop in Hrange as [? ?].
  - intros (Hblur&Hlow&Hhigh). subst in_range. by rewrite Hblur, Hlow, Hhigh.
Qed.

End liveness_heuristics.

(** C4 at a sharp, well-lit image: blur 80 and brightness 120 give the
    confidence round((0.8 + 1) / 2, 2) and a live verdict. *)
Lemma detect_liveness_heuristics_witness :
  let result :=
    @DeepFaceService.detect_liveness
      (samples.deepface_answering (Ok samples.matching))
      (samples.cv2_two_faces true) samples.numpy_sharp_and_lit
      samples.disk_with_document samples.document_path in
  get result "confidence"
  = PyFloat (samples.round ((pymin 1 (80 / 100) + 1) / 2) 2)
  ∧ (get result "is_live" = PyBool true
     ↔ PrimFloat.ltb 50 80 = true
       ∧ PrimFloat.leb 60 120 = true ∧ PrimFloat.leb 120 200 = true)
  ∧ result
    = {[ "is_live" := PyBool true;
         "confidence" := PyFloat (samples.round ((pymin 1 (80 / 100) + 1) / 2) 2);
         "method" := PyStr "basic_quality_check";
         "message" := PyStr "Liveness indicators passed" ]}.
Proof.
  exact (@detect_liveness_heuristics
           (samples.deepface_answering (Ok samples.matching))
           (samples.cv2_two_faces true) samples.numpy_sharp_and_lit
           samples.disk_with_document samples.document_path
           [(10, 10, 40, 40)] (samples.blank 60 80)
           eq_refl (λ Hnil, eq_ind [(10, 10, 40, 40)]
                              (λ l, match l with [] => False | _ => True end)
                              I [] Hnil)
           eq_refl).
Defined.

Example sample_confidence :
  samples.round ((pymin 1 (80 / 100) + 1) / 2) 2 = (9 / 10)%float.
Proof. reflexivity. Qed.

(* ===================================================================== *)
(** * The endpoints: content-type validation *)
(* ===================================================================== *)

Section validation.
Context {os : OS} {cv : cv2.API} {df : DeepFace.API} {npy : numpy.API}.

Lemma validate_image_rejects file w :
  content_type file ≠ Some "image/jpeg" →
  content_type file ≠ Some "image/png" →
  _validate_image file w = (Raise unsupported_file_type, w).
Proof.
  intros Hjpeg Hpng. unfold _validate_image.
  rewrite bool_decide_eq_true_2; [done|].
  unfold supported. by rewrite not_elem_of_union, !not_elem_of_singleton.
Qed.

Lemma validate_image_accepts file w :
  content_type file = Some "image/jpeg" ∨ content_type file = Some "image/png" →
  _validate_image file w = (Ok (), w).
Proof.
  intros Hsupported. unfold _validate_image.
  rewrite bool_decide_eq_false_2; [done|].
  unfold supported. intros Hnot. apply Hnot.
  rewrite elem_of_union, !elem_of_singleton. tauto.
Qed.

(** C6.  An upload whose content type is neither image/jpeg nor image/png
    makes each endpoint fail with HTTP 400 and the detail "Unsupported file
    type. Only JPEG and PNG are allowed."; the state is left as it was: no
    temporary file has been created or written and no service has been
    called.  For verify-face this holds whichever of the two uploads is the
    unsupported one. *)
Theorem unsupported_upload_rejected (file other : UploadFile) (w : world) :
  content_type file ≠ Some "image/jpeg" →
  content_type file ≠ Some "image/png" →
  let rejected : result raised dict * world :=
    (Raise (HTTPException 400
              (PyStr "Unsupported file type. Only JPEG and PNG are allowed.")), w) in
  face_extraction.extract_face file w = rejected
  ∧ liveness.detect_liveness file w = rejected
  ∧ face_verification.verify_face file other w = rejected
  ∧ face_verification.verify_face other file w = rejected.
Proof.
  intros Hjpeg Hpng rejected.
  pose proof (validate_image_rejects file w Hjpeg Hpng) as Hfile.
  unfold face_extraction.extract_face, liveness.detect_liveness,
    face_verification.verify_face.
  unfold mbind, M_bind at 1.
  split_and!.
  - unfold M_bind at 1. by rewrite Hfile.
  - unfold M_bind at 1. by rewrite Hfile.
  - unfold M_bind at 1. by rewrite Hfile.
  - unfold M_bind at 1.
    destruct (bool_decide (content_type other ∉ supported)) eqn:Hother.
    + unfold _validate_image at 1. rewrite Hother.
      unfold raise. (* the first upload is unsupported as well *) done.
    + unfold _validate_image at 1. rewrite Hother.
      unfold mret, M_ret. unfold M_bind at 1. by rewrite Hfile.
Qed.

End validation.

(* ===================================================================== *)
(** * The endpoints: running a handler *)
(* ===================================================================== *)

(** One step of a handler: expose the next call to the operating system and
    split on whether it fails. *)
Ltac run_step :=
  first
    [ progress unfold mbind, M_bind, mret, M_ret, raise, NamedTemporaryFile,
        read, write, close, call, call_writing, unlink, lift, try_finally, try_except
    | match goal with
      | |- context [match mkstemp ?w with _ => _ end] =>
          destruct (mkstemp w) as [?path|?exc] eqn:?
      | |- context [match read_upload ?w ?f with _ => _ end] =>
          destruct (read_upload w f) as [?content|[?exc|?msg]] eqn:?
      | |- context [match write_file ?w ?p ?c with _ => _ end] =>
          destruct (write_file w p c) as [[]|?exc] eqn:?
      | |- context [match close_file ?w ?p with _ => _ end] =>
          destruct (close_file w p) as [[]|?exc] eqn:?
      | |- context [if unlink_file ?w ?p then _ else _] =>
          destruct (unlink_file w p) eqn:?
      end
    | progress cbn beta iota zeta delta
        [log trace disk default from_option id negb truthy] ].

Ltac run := repeat run_step.

(** The events a run has added to the trace. *)
Ltac trace_suffix :=
  first [ rewrite <- !app_assoc; reflexivity
        | reflexivity
        | symmetry; apply app_nil_r ].

(** Membership of an event in an explicit trace. *)
Ltac split_trace Hin :=
  cbn [app] in Hin;
  repeat (apply elem_of_cons in Hin as [Hin|Hin]; [try discriminate Hin|]);
  try (by apply elem_of_nil in Hin).

Section extract_face_endpoint.
Context {os : OS} {cv : cv2.API}.

Lemma extraction_flag_and_message fs path :
  ∃ (b : bool) (m : string),
    OpenCVService.extract_face_from_document fs path !! "success" = Some (PyBool b)
    ∧ OpenCVService.extract_face_from_document fs path !! "message" = Some (PyStr m).
Proof. destruct (extract_face_outcome fs path); by eexists _, _. Qed.

(** X23.  On a request with a supported content type, whatever the
    operating system does, the handler answers from the service's dictionary
    alone whenever it has called the service: HTTP 400 with the dictionary's
    message as detail exactly when [success] is false, and the dictionary
    itself as the 200 body otherwise.  When the service was never called
    (creating, reading, writing or closing the temporary file failed, or the
    request was cancelled), the outcome is that failure, never a 200 or a
    400. *)
Theorem extract_face_answer_follows_service_call document w :
  content_type document = Some "image/jpeg" ∨ content_type document = Some "image/png" →
  let '(outcome, w') := face_extraction.extract_face document w in
  ∃ new, trace w' = (trace w ++ new)%list
    ∧ (∀ service args result, Called service args result ∈ new →
         (∃ fs path, args = [path]
                     ∧ result = OpenCVService.extract_face_from_document fs path)
         ∧ ((get result "success" = PyBool false
             ∧ outcome = Raise (HTTPException 400 (get result "message")))
            ∨ (get result "success" = PyBool true ∧ outcome = Ok result)))
    ∧ ((∀ service args result, Called service args result ∉ new) →
         (∃ exc, outcome = Raise (Uncaught exc))
         ∨ (∃ detail, outcome = Raise (HTTPException 500 detail))).
Proof.
  intros Hsupported.
  unfold face_extraction.extract_face.
  unfold mbind, M_bind at 1. rewrite validate_image_accepts by done.
  run.
  all: try match goal with
       | |- context [OpenCVService.extract_face_from_document ?fs ?p] =>
           destruct (extraction_flag_and_message fs p) as (b&m&Hflag&Hmessage);
           unfold get, get_default; rewrite ?Hflag, ?Hmessage;
           destruct b; run
       end.
  all: eexists; (split; [trace_suffix|]).
  all: split.
  (* the answers of the runs that called the service *)
  all: try (intros service args result Hin; split_trace Hin;
            injection Hin as -> -> ->;
            (split; [by eexists _, _|]);
            rewrite ?Hflag, ?Hmessage;
            first [by left | by right]).
  (* the runs that did not *)
  all: intros Hnever.
  all: try (by left; eexists).
  all: try (by right; eexists).
  all: exfalso; eapply Hnever; cbn [app]; repeat first [ by left | right ].
Qed.

(** C8.  On a request with a supported content type whose temporary file
    is created, written with the bytes of the upload and closed, the handler
    calls the service on that file and maps its dictionary: HTTP 400 with the
    dictionary's message as detail exactly when [success] is false, and the
    dictionary itself as the 200 body otherwise. *)
Theorem extract_face_maps_service_result document w path content :
  content_type document = Some "image/jpeg" ∨ content_type document = Some "image/png" →
  mkstemp w = Ok path →
  let created := {| disk := <[path := []]> (disk w);
                    trace := (trace w ++ [Created path])%list |} in
  read_upload created document = Ok content →
  write_file created path content = Ok () →
  let written := {| disk := <[path := content]> (disk created);
                    trace := (trace created ++ [Wrote path content])%list |} in
  close_file written path = Ok () →
  let result :=
    OpenCVService.extract_face_from_document (<[path := content]> (disk w)) path in
  let '(outcome, w') := face_extraction.extract_face document w in
  (∃ removed,
     trace w' = (trace w ++ [Created path; Wrote path content; Closed path;
                             Called "extract_face_from_document" [path] result;
                             Unlinked path removed])%list)
  ∧ ((get result "success" = PyBool false
      ∧ outcome = Raise (HTTPException 400 (get result "message")))
     ∨ (get result "success" = PyBool true ∧ outcome = Ok result)).
Proof.
  intros Hsupported Hcreate created Hread Hwrite written Hclose result.
  assert (Hdisk : <[path := content]> (<[path := []]> (disk w))
                  = <[path := content]> (disk w)) by apply insert_insert_eq.
  pose proof (conj Hread (conj Hwrite Hclose)) as Hnominal.
  clear Hread Hwrite Hclose.
  unfold face_extraction.extract_face.
  unfold mbind, M_bind at 1. rewrite validate_image_accepts by done.
  unfold M_bind at 1, NamedTemporaryFile. rewrite Hcreate.
  run.
  all: destruct Hnominal as (Hread & Hwrite & Hclose);
       pose proof (eq_sym Hread) as Hread';
       pose proof (eq_sym Hwrite) as Hwrite';
       pose proof (eq_sym Hclose) as Hclose';
       clear Hread Hwrite Hclose.
  all: repeat match goal with
       | H : read_upload _ _ = ?r |- _ =>
           assert (Hsame : Ok content = r) by exact (eq_trans Hread' H); clear H;
           try injection Hsame as <-
       | H : write_file _ _ _ = ?r |- _ =>
           assert (Ok () = r) by exact (eq_trans Hwrite' H); clear H
       | H : close_file _ _ = ?r |- _ =>
           assert (Ok () = r) by exact (eq_trans Hclose' H); clear H
       end.
  all: try congruence.
  all: rewrite Hdisk; fold result.
  all: destruct (extraction_flag_and_message (<[path := content]> (disk w)) path)
         as (b&m&Hflag&Hmessage); fold result in Hflag, Hmessage.
  all: unfold get, get_default; rewrite Hflag, ?Hmessage; destruct b; run.
  all: (split; [eexists; by rewrite <- !app_assoc|]).
  all: first [by left | by right].
Qed.

End extract_face_endpoint.

(* ===================================================================== *)
(** * The endpoints: the life of a temporary file *)
(* ===================================================================== *)

(** The events of a finished [try ... finally]: name the middle of the
    trace and check it. *)
Ltac middle_of_trace :=
  cbn [app];
  lazymatch goal with
  | |- ∃ middle removed, Created ?p :: ?rest = _ ∧ _ =>
      exists (removelast rest); eexists;
      split_and!; [reflexivity | repeat constructor | ]
  | |- ∃ middle removed1 removed2, Created ?p :: Created ?q :: ?rest = _ ∧ _ =>
      exists (removelast (removelast rest)); eexists _, _;
      split_and!; [reflexivity | repeat constructor | | ]
  end.

Section temporary_files.
Context {os : OS} {cv : cv2.API} {df : DeepFace.API} {npy : numpy.API}.

(** X3.  Once the temporary file of [extract_face] exists, every path ends
    with the attempt to unlink it: after the service call when there is one,
    and as the last event before the response or the error leaves the
    handler.  A successful unlink leaves no file behind. *)
Lemma extract_face_unlinks_its_file document w :
  let '(outcome, w') := face_extraction.extract_face document w in
  ∃ new, trace w' = (trace w ++ new)%list ∧
    (new = [] ∧ disk w' = disk w
     ∨ ∃ path middle removed,
         new = (Created path :: middle ++ [Unlinked path removed])%list
         ∧ Forall quiet middle
         ∧ (removed = true → disk w' !! path = None)).
Proof.
  unfold face_extraction.extract_face, _validate_image.
  destruct (bool_decide _); run.
  all: try match goal with
       | |- context [if ?b then _ else _] => destruct b; run
       end.
  all: eexists; (split; [trace_suffix|]).
  all: first [ by left | right; eexists; middle_of_trace ].
  all: first [ done | intros _; apply lookup_delete_eq ].
Qed.

(** X4.  The same for [detect_liveness]: no temporary file, or exactly
    one, whose unlink is attempted as the last event of the run. *)
Lemma detect_liveness_unlinks_its_file photo w :
  let '(outcome, w') := liveness.detect_liveness photo w in
  ∃ new, trace w' = (trace w ++ new)%list ∧
    (new = [] ∧ disk w' = disk w
     ∨ ∃ path middle removed,
         new = (Created path :: middle ++ [Unlinked path removed])%list
         ∧ Forall quiet middle
         ∧ (removed = true → disk w' !! path = None)).
Proof.
  unfold liveness.detect_liveness, _validate_image.
  destruct (bool_decide _); run.
  all: try match goal with
       | |- context [if ?b then _ else _] => destruct b; run
       end.
  all: eexists; (split; [trace_suffix|]).
  all: first [ by left | right; eexists; middle_of_trace ].
  all: first [ done | intros _; apply lookup_delete_eq ].
Qed.

(** X5.  [verify_face] creates its two temporary files before entering the
    [try]: when both exist, every path ends with the attempts to unlink the
    first and then the second; when the second creation fails, the error
    leaves the handler with the first file still on disk. *)
Lemma verify_face_unlinks_both_files_or_leaks live_photo document_photo w :
  let '(outcome, w') := face_verification.verify_face live_photo document_photo w in
  ∃ new, trace w' = (trace w ++ new)%list ∧
    (new = [] ∧ disk w' = disk w
     ∨ (∃ live_tmp exc,
          new = [Created live_tmp]
          ∧ outcome = Raise (Uncaught exc)
          ∧ disk w' !! live_tmp = Some [])
     ∨ ∃ live_tmp doc_tmp middle removed1 removed2,
         new = (Created live_tmp :: Created doc_tmp
                  :: middle ++ [Unlinked live_tmp removed1; Unlinked doc_tmp removed2])%list
         ∧ Forall quiet middle
         ∧ (removed1 = true → disk w' !! live_tmp = None)
         ∧ (removed2 = true → disk w' !! doc_tmp = None)).
Proof.
  unfold face_verification.verify_face, _validate_image.
  destruct (bool_decide _), (bool_decide _); run.
  all: try match goal with
       | |- context [if ?b then _ else _] => destruct b; run
       end.
  all: eexists; (split; [trace_suffix|]).
  all: try (by left).
  all: try (right; left; eexists _, _; split_and!; [done..|apply lookup_insert_eq]).
  all: right; right; eexists _, _; cbn [app].
  all: lazymatch goal with
       | |- ∃ middle removed1 removed2, Created _ :: Created _ :: ?rest = _ ∧ _ =>
           exists (removelast (removelast rest)); eexists _, _;
           split_and!; [reflexivity | repeat constructor | | ]
       end.
  all: try done.
  all: intros _.
  all: rewrite ?lookup_delete_eq; try done.
  all: match goal with
       | |- delete ?q _ !! ?p = None =>
           destruct (decide (q = p)) as [->|];
           [apply lookup_delete_eq | rewrite lookup_delete_ne by done; apply lookup_delete_eq]
       end.
Qed.

End temporary_files.

(** C7 fails on verify-face when the second temporary file cannot be
    created: both uploads pass validation, the first temporary file is
    created, the [OSError] of the second creation leaves the handler, and no
    unlink of the first file has been attempted; the file stays on disk. *)
Lemma verify_face_leaks_first_temporary_file :
  let run :=
    @face_verification.verify_face samples.os_one_file_left
      (samples.deepface_answering (Ok samples.matching))
      (samples.jpeg_upload "selfie.jpg") (samples.jpeg_upload "passport.jpg")
      samples.idle in
  run.1 = Raise (Uncaught (OSError "[Errno 24] Too many open files"))
  ∧ trace run.2 = [Created "/tmp/tmp0.jpg"]
  ∧ disk run.2 !! "/tmp/tmp0.jpg" = Some [].
Proof. split_and!; reflexivity. Qed.

(** The same request on a system where nothing fails: both files are
    unlinked after the service call and the disk is empty again. *)
Example verify_face_nominal_run :
  let run :=
    @face_verification.verify_face samples.os_reliable
      (samples.deepface_answering (Ok samples.matching))
      (samples.jpeg_upload "selfie.jpg") (samples.jpeg_upload "passport.jpg")
      samples.idle in
  run.1 = Ok (DeepFaceService.verification true 0.75 0.25 0.6875)
  ∧ trace run.2
    = [Created "/tmp/tmp0.jpg"; Created "/tmp/tmp1.jpg";
       Wrote "/tmp/tmp0.jpg" samples.jpeg; Wrote "/tmp/tmp1.jpg" samples.jpeg;
       Closed "/tmp/tmp0.jpg"; Closed "/tmp/tmp1.jpg";
       Called "verify_faces" ["/tmp/tmp0.jpg"; "/tmp/tmp1.jpg"]
         (DeepFaceService.verification true 0.75 0.25 0.6875);
       Unlinked "/tmp/tmp0.jpg" true; Unlinked "/tmp/tmp1.jpg" true]
  ∧ disk run.2 = ∅.
Proof. split_and!; reflexivity. Qed.

(* ===================================================================== *)
(** * The endpoints on sample requests *)
(* ===================================================================== *)

(** C6 at a PDF upload, alone and on either side of a JPEG. *)
Lemma unsupported_upload_rejected_witness :
  let rejected : result raised dict * world :=
    (Raise (HTTPException 400
              (PyStr "Unsupported file type. Only JPEG and PNG are allowed.")),
     samples.idle) in
  @face_extraction.extract_face samples.os_reliable (samples.cv2_two_faces true)
    samples.pdf_upload samples.idle = rejected
  ∧ @liveness.detect_liveness samples.os_reliable
      (samples.deepface_answering (Ok samples.matching))
      (samples.cv2_two_faces true) samples.numpy_sharp_and_lit
      samples.pdf_upload samples.idle = rejected
  ∧ @face_verification.verify_face samples.os_reliable
      (samples.deepface_answering (Ok samples.matching))
      samples.pdf_upload (samples.jpeg_upload "passport.jpg") samples.idle = rejected
  ∧ @face_verification.verify_face samples.os_reliable
      (samples.deepface_answering (Ok samples.matching))
      (samples.jpeg_upload "passport.jpg") samples.pdf_upload samples.idle = rejected.
Proof.
  apply (@unsupported_upload_rejected samples.os_reliable (samples.cv2_two_faces true)
           (samples.deepface_answering (Ok samples.matching))
           samples.numpy_sharp_and_lit
           samples.pdf_upload (samples.jpeg_upload "passport.jpg") samples.idle);
    discriminate.
Defined.

(** X23 at a JPEG upload on a system where nothing fails. *)
Lemma extract_face_answer_follows_service_call_witness :
  let '(outcome, w') :=
    @face_extraction.extract_face samples.os_reliable (samples.cv2_two_faces true)
      (samples.jpeg_upload "passport.jpg") samples.idle in
  ∃ new, trace w' = (trace samples.idle ++ new)%list
    ∧ (∀ service args result, Called service args result ∈ new →
         (∃ fs path, args = [path]
                     ∧ result = @OpenCVService.extract_face_from_document
                                  (samples.cv2_two_faces true) fs path)
         ∧ ((get result "success" = PyBool false
             ∧ outcome = Raise (HTTPException 400 (get result "message")))
            ∨ (get result "success" = PyBool true ∧ outcome = Ok result)))
    ∧ ((∀ service args result, Called service args result ∉ new) →
         (∃ exc, outcome = Raise (Uncaught exc))
         ∨ (∃ detail, outcome = Raise (HTTPException 500 detail))).
Proof.
  apply (@extract_face_answer_follows_service_call samples.os_reliable
           (samples.cv2_two_faces true) (samples.jpeg_upload "passport.jpg")
           samples.idle).
  by left.
Defined.

(** C8 at a JPEG upload on a system where nothing fails, with an encoder
    that succeeds and with one that does not. *)
Lemma extract_face_maps_service_result_witness :
  let result :=
    @OpenCVService.extract_face_from_document (samples.cv2_two_faces false)
      (<["/tmp/tmp0.jpg" := samples.jpeg]> (disk samples.idle)) "/tmp/tmp0.jpg" in
  let '(outcome, w') :=
    @face_extraction.extract_face samples.os_reliable (samples.cv2_two_faces false)
      (samples.jpeg_upload "passport.jpg") samples.idle in
  (∃ removed,
     trace w' = (trace samples.idle
                 ++ [Created "/tmp/tmp0.jpg"; Wrote "/tmp/tmp0.jpg" samples.jpeg;
                     Closed "/tmp/tmp0.jpg";
                     Called "extract_face_from_document" ["/tmp/tmp0.jpg"] result;
                     Unlinked "/tmp/tmp0.jpg" removed])%list)
  ∧ ((get result "success" = PyBool false
      ∧ outcome = Raise (HTTPException 400 (get result "message")))
     ∨ (get result "success" = PyBool true ∧ outcome = Ok result)).
Proof.
  apply (@extract_face_maps_service_result samples.os_reliable
           (samples.cv2_two_faces false) (samples.jpeg_upload "passport.jpg")
           samples.idle "/tmp/tmp0.jpg" samples.jpeg);
    [by left|reflexivity..].
Defined.

(** The two answers of the extraction endpoint, run in full: the service's
    dictionary as the body, and its message as the detail of a 400. *)
Example extract_face_nominal_run :
  let run :=
    @face_extraction.extract_face samples.os_reliable (samples.cv2_two_faces true)
      (samples.jpeg_upload "passport.jpg") samples.idle in
  run.1 = Ok (OpenCVService.response true true (PyStr "SkZJRg==") 2
                "Largest face extracted")
  ∧ trace run.2
    = [Created "/tmp/tmp0.jpg"; Wrote "/tmp/tmp0.jpg" samples.jpeg;
       Closed "/tmp/tmp0.jpg";
       Called "extract_face_from_document" ["/tmp/tmp0.jpg"]
         (OpenCVService.response true true (PyStr "SkZJRg==") 2
            "Largest face extracted");
       Unlinked "/tmp/tmp0.jpg" true]
  ∧ disk run.2 = ∅.
Proof. split_and!; reflexivity. Qed.

Example extract_face_failed_run :
  let run :=
    @face_extraction.extract_face samples.os_reliable (samples.cv2_two_faces false)
      (samples.jpeg_upload "passport.jpg") samples.idle in
  run.1 = Raise (HTTPException 400 (PyStr "Failed to encode face image"))
  ∧ last (trace run.2) = Some (Unlinked "/tmp/tmp0.jpg" true)
  ∧ disk run.2 = ∅.
Proof. split_and!; reflexivity. Qed.

(* ===================================================================== *)
(** * The padding on sample detections *)
(* ===================================================================== *)

(** The binary64 padding of a 35-pixel side, by the theorem and by running
    the kernel's floats. *)
Lemma float64_padding_agrees_witness :
  int_of_float (float_of_int 35 * fifth) = Some (int_of_product 35 (1 # 5)).
Proof. apply (float64_padding_agrees 35). split; [discriminate|reflexivity]. Defined.

Example float64_padding_runs :
  int_of_float (float_of_int 35 * fifth) = Some 7
  ∧ int_of_float (float_of_int 2147483647 * fifth) = Some 429496729
  ∧ int_of_float (float_of_int 30 * fifth) = Some 6.
Proof. split_and!; reflexivity. Qed.

(** The 35x35 detection of the sample image, padded and cropped. *)
Lemma padded_crop_inside_image_witness :
  let image := samples.blank 60 80 in
  let box := OpenCVService._add_padding (cv2.shape image) (40, 10, 35, 35) (1 # 5) in
  let '(x', y', w', h') := box in
  np.height (OpenCVService.crop image box) = h'
  ∧ np.width (OpenCVService.crop image box) = w'
  ∧ 35 ≤ w' ∧ 35 ≤ h'
  ∧ ∀ i j : nat, Z.of_nat i < h' → Z.of_nat j < w' →
      (OpenCVService.crop image box !! i) ≫= (.!! j)
      = (image !! (Z.to_nat y' + i)%nat) ≫= (.!! (Z.to_nat x' + j)%nat).
Proof.
  apply (padded_crop_inside_image (samples.blank 60 80) 40 10 35 35);
    [by apply Forall_replicate|by vm_compute..].
Defined.

Example padded_crop_runs :
  OpenCVService._add_padding (60, 80, 3) (40, 10, 35, 35) (1 # 5) = (33, 3, 47, 49)
  ∧ OpenCVService.crop (samples.blank 60 80) (33, 3, 47, 49) = samples.blank 49 47.
Proof. split; reflexivity. Qed.

(* ===================================================================== *)
(** * More on the selection and the padding of a detection *)
(* ===================================================================== *)

Section selection.

(** X6.  [max(faces, key=...)] selects the first detection whose key, the
    int32 product [rect[2] * rect[3]], is maximal: every detection before the
    selected one has a strictly smaller key, every one after it a key at
    most as large. *)
Theorem largest_face_is_first_maximal (first : cv2.rect) (rest : list cv2.rect) :
  let largest := max_by OpenCVService.area first rest in
  ∃ before after,
    first :: rest = (before ++ largest :: after)%list
    ∧ (∀ face, face ∈ before → OpenCVService.area face < OpenCVService.area largest)
    ∧ (∀ face, face ∈ after → OpenCVService.area face ≤ OpenCVService.area largest).
Proof.
  cbv zeta. revert first.
  induction rest as [|item rest IH]; intros first; simpl.
  - exists [], []. split_and!; [done|by intros ? ?%elem_of_nil..].
  - destruct (Z.ltb_spec (OpenCVService.area first) (OpenCVService.area item)) as [Hlt|Hge].
    + destruct (IH item) as (before & after & Heq & Hbefore & Hafter).
      pose proof (max_by_spec OpenCVService.area rest item) as [_ Hmax].
      exists (first :: before), after. split_and!.
      * by rewrite Heq.
      * intros face [->|Hin]%elem_of_cons; [|by apply Hbefore].
        assert (item ∈ item :: rest) as Hitem%Hmax by left. lia.
      * done.
    + destruct (IH first) as (before & after & Heq & Hbefore & Hafter).
      destruct before as [|head before].
      * simpl in Heq. injection Heq as Hfirst Hrest.
        exists [], (item :: after). split_and!.
        -- simpl. by rewrite <- Hfirst, Hrest.
        -- by intros ? ?%elem_of_nil.
        -- intros face [->|Hin]%elem_of_cons; [|by apply Hafter].
           rewrite <- Hfirst. lia.
      * simpl in Heq. injection Heq as Hhead Hrest. subst head.
        exists (first :: item :: before), after. split_and!.
        -- simpl. do 2 f_equal. exact Hrest.
        -- intros face [->|[->|Hin]%elem_of_cons]%elem_of_cons.
           ++ apply Hbefore. left.
           ++ assert (first ∈ first :: before) as Hfirst%Hbefore by left. lia.
           ++ apply Hbefore. by right.
        -- done.
Qed.

(** X7.  Whatever the shape, the box and the ratio, the padded box starts
    at a non-negative corner and ends inside the image: [x' >= 0],
    [y' >= 0], [x' + w' <= width], [y' + h' <= height]. *)
Theorem add_padding_never_leaves_image shape bbox padding_ratio :
  let '(height, width, _) := shape in
  let '(x', y', w', h') := OpenCVService._add_padding shape bbox padding_ratio in
  0 ≤ x' ∧ 0 ≤ y' ∧ x' + w' ≤ width ∧ y' + h' ≤ height.
Proof.
  destruct shape as [[height width] channels], bbox as [[[x y] w] h].
  unfold OpenCVService._add_padding. lia.
Qed.

(** X8.  A detection that keeps a fifth of its sides away from every border
    is padded by exactly that fifth on each side: the box is not clamped and
    stays centred on the detection. *)
Theorem add_padding_unclamped height width channels x y w h :
  w ÷ 5 ≤ x → h ÷ 5 ≤ y →
  x + w + w ÷ 5 ≤ width → y + h + h ÷ 5 ≤ height →
  OpenCVService._add_padding (height, width, channels) (x, y, w, h) (1 # 5)
  = (x - w ÷ 5, y - h ÷ 5, w + 2 * (w ÷ 5), h + 2 * (h ÷ 5)).
Proof.
  intros Hx Hy Hright Hbottom. rewrite add_padding_fifth.
  repeat f_equal; lia.
Qed.

End selection.

Lemma add_padding_unclamped_witness :
  OpenCVService._add_padding (480, 640, 3) (100, 50, 200, 200) (1 # 5)
  = (100 - 200 ÷ 5, 50 - 200 ÷ 5, 200 + 2 * (200 ÷ 5), 200 + 2 * (200 ÷ 5)).
Proof.
  apply (add_padding_unclamped 480 640 3 100 50 200 200); by vm_compute.
Defined.

(* ===================================================================== *)
(** * The service results against the response models *)
(* ===================================================================== *)

Section response_models.

Lemma response_validates s f b c m :
  schemas.accepts schemas.OptionalStr b = true →
  schemas.validates schemas.FaceExtractionResponse (OpenCVService.response s f b c m) = true.
Proof.
  intros Hb. by destruct b.
Qed.

Lemma response_dump s f b c m :
  schemas.dump schemas.FaceExtractionResponse (OpenCVService.response s f b c m)
  = OpenCVService.response s f b c m.
Proof. reflexivity. Qed.

End response_models.

Section extraction_response.
Context {cv : cv2.API}.

(** X9.  Whatever the libraries do, the dictionary of
    [extract_face_from_document] is a valid [FaceExtractionResponse]: the
    five declared fields are present with values of the declared types, and
    the model keeps the dictionary as it is. *)
Theorem extract_face_result_matches_schema fs img_path :
  let result := OpenCVService.extract_face_from_document fs img_path in
  schemas.validates schemas.FaceExtractionResponse result = true
  ∧ schemas.dump schemas.FaceExtractionResponse result = result.
Proof.
  cbv zeta. destruct (extract_face_outcome fs img_path);
    (split; [by apply response_validates | apply response_dump]).
Qed.

(** X10.  On every path [face_count] is an integer that is never negative,
    and [face_found] is true exactly when [face_count] is at least 1. *)
Theorem extract_face_counts_detections fs img_path :
  let result := OpenCVService.extract_face_from_document fs img_path in
  ∃ (found : bool) (count : Z),
    get result "face_found" = PyBool found
    ∧ get result "face_count" = PyInt count
    ∧ 0 ≤ count
    ∧ (found = true ↔ 1 ≤ count).
Proof.
  cbv zeta. destruct (extract_face_outcome fs img_path);
    eexists _, _;
    (split; [apply get_response_face_found|]);
    (split; [apply get_response_face_count|]);
    cbn [length]; split; try lia; split; (done || lia).
Qed.

End extraction_response.

Section verification_response.
Context {df : DeepFace.API}.

Lemma ltb_leb (x y : float) : PrimFloat.ltb x y = true → PrimFloat.leb x y = true.
Proof.
  rewrite FloatAxioms.ltb_spec, FloatAxioms.leb_spec. unfold SFltb, SFleb.
  by destruct (SFcompare _ _) as [[]|].
Qed.

Lemma pymax_zero_not_negative (x : float) : PrimFloat.leb 0 (pymax 0 x) = true.
Proof.
  unfold pymax. destruct (PrimFloat.ltb 0 x) eqn:Hpositive; [by apply ltb_leb|done].
Qed.

(** The two shapes of a verification result. *)
Lemma verify_faces_outcome fs img1_path img2_path :
  let result := DeepFaceService.verify_faces fs img1_path img2_path in
  (∃ answer,
     DeepFace.verify fs img1_path img2_path
       DeepFaceService.MODEL_NAME DeepFaceService.DETECTOR_BACKEND = Ok answer
     ∧ result = DeepFaceService.verification
                  (default false (DeepFace.verified answer))
                  (pymax 0 (1 - default 1%float (DeepFace.distance answer)))
                  (default 1%float (DeepFace.distance answer))
                  (default 0%float (DeepFace.threshold answer)))
  ∨ (∃ exc,
       DeepFace.verify fs img1_path img2_path
         DeepFaceService.MODEL_NAME DeepFaceService.DETECTOR_BACKEND = Raise exc
       ∧ result = DeepFaceService.verification_error
                    (match exc with ValueError _ => "No face detected" | _ => str exc end)).
Proof.
  cbv zeta. unfold DeepFaceService.verify_faces.
  destruct (DeepFace.verify _ _ _ _ _) as [answer|exc].
  - left. by eexists.
  - right. exists exc. by destruct exc.
Qed.

(** X11.  Every dictionary of [verify_faces] is a valid
    [FaceVerificationResponse]; the key ["error"] is present exactly when
    the library raised; it is not a field of the model, so the body sent for
    a returned dictionary is the dictionary without it; and a result with
    [verified] true never carries an error. *)
Theorem verify_faces_result_matches_schema fs img1_path img2_path :
  let result := DeepFaceService.verify_faces fs img1_path img2_path in
  schemas.validates schemas.FaceVerificationResponse result = true
  ∧ (is_Some (result !! "error")
     ↔ ∃ exc, DeepFace.verify fs img1_path img2_path
                DeepFaceService.MODEL_NAME DeepFaceService.DETECTOR_BACKEND = Raise exc)
  ∧ schemas.dump schemas.FaceVerificationResponse result = delete "error" result
  ∧ (get result "verified" = PyBool true → result !! "error" = None).
Proof.
  cbv zeta.
  destruct (verify_faces_outcome fs img1_path img2_path)
    as [(answer & Hverify & ->)|(exc & Hverify & ->)]; split_and!; try done.
  - split; [by intros [? [=]]|]. intros [exc Hraise]. congruence.
  - split; [by eexists|done].
Qed.

(** X12.  The confidence of a verification result is a float that is never
    negative and never NaN, whatever distance the library reports (a NaN or
    a distance above 1 gives 0.0). *)
Theorem verify_faces_confidence_not_negative fs img1_path img2_path :
  ∃ confidence,
    get (DeepFaceService.verify_faces fs img1_path img2_path) "confidence"
    = PyFloat confidence
    ∧ PrimFloat.leb 0 confidence = true.
Proof.
  destruct (verify_faces_outcome fs img1_path img2_path)
    as [(answer & Hverify & ->)|(exc & Hverify & ->)].
  - eexists. split; [reflexivity|apply pymax_zero_not_negative].
  - by exists 0%float.
Qed.

End verification_response.

Example verify_faces_confidence_runs :
  pymax 0 (1 - 1.5) = 0%float
  ∧ pymax 0 (1 - nan) = 0%float
  ∧ pymax 0 (1 - 0.25) = 0.75%float.
Proof. split_and!; reflexivity. Qed.

(* ===================================================================== *)
(** * [DeepFaceService.detect_liveness] on every path *)
(* ===================================================================== *)

Section liveness_paths.
Context {df : DeepFace.API} {cv : cv2.API} {npy : numpy.API}.

(** The four shapes of a liveness result, one per [return]. *)
Lemma detect_liveness_outcome fs img_path :
  let result := DeepFaceService.detect_liveness fs img_path in
  (DeepFace.extract_faces fs img_path DeepFaceService.DETECTOR_BACKEND = Ok []
   ∧ result = DeepFaceService.liveness false 0 "No face detected")
  ∨ (∃ faces,
       DeepFace.extract_faces fs img_path DeepFaceService.DETECTOR_BACKEND = Ok faces
       ∧ faces ≠ []
       ∧ cv2.imread fs img_path = None
       ∧ result = DeepFaceService.liveness false 0 "Invalid image")
  ∨ (∃ faces image,
       DeepFace.extract_faces fs img_path DeepFaceService.DETECTOR_BACKEND = Ok faces
       ∧ faces ≠ []
       ∧ cv2.imread fs img_path = Some image
       ∧ let gray := cv2.cvtColor_BGR2GRAY image in
         let blur := numpy.var (cv2.Laplacian_CV_64F gray) in
         let live := PrimFloat.ltb 50 blur && DeepFaceService.well_lit (numpy.mean gray) in
         let b := (if DeepFaceService.well_lit (numpy.mean gray) then 1 else 0)%float in
         result = DeepFaceService.liveness live
                    (numpy.round ((pymin 1 (blur / 100) + b) / 2) 2)
                    (if live then "Liveness indicators passed"
                     else "Liveness indicators weak"))
  ∨ (∃ exc,
       DeepFace.extract_faces fs img_path DeepFaceService.DETECTOR_BACKEND = Raise exc
       ∧ result = DeepFaceService.liveness false 0 (str exc)).
Proof.
  cbv zeta. unfold DeepFaceService.detect_liveness, DeepFaceService.detect_liveness_try.
  unfold mbind, result_bind.
  destruct (DeepFace.extract_faces _ _ _) as [[|face faces]|exc].
  - by left.
  - replace (Z.of_nat (length (face :: faces)) =? 0) with false
      by (symmetry; apply Z.eqb_neq; simpl; lia).
    destruct (cv2.imread fs img_path) as [image|].
    + right; right; left. exists (face :: faces), image. split_and!; try done.
      cbv zeta. by rewrite half_blur_threshold, brightness_score_positive.
    + right; left. by exists (face :: faces).
  - do 3 right. by exists exc.
Qed.

(** X13.  A live verdict is never given without evidence: when [is_live]
    is true, the face detector returned at least one face, the image was
    readable, the variance of the Laplacian is above 50, the mean grey level
    is within [60, 200], and the message is "Liveness indicators passed".  A
    library exception, an image without a face or an unreadable image never
    yields [is_live] true. *)
Theorem detect_liveness_live_verdict_needs_evidence fs img_path :
  get (DeepFaceService.detect_liveness fs img_path) "is_live" = PyBool true →
  ∃ faces image,
    DeepFace.extract_faces fs img_path DeepFaceService.DETECTOR_BACKEND = Ok faces
    ∧ faces ≠ []
    ∧ cv2.imread fs img_path = Some image
    ∧ PrimFloat.ltb 50 (numpy.var (cv2.Laplacian_CV_64F (cv2.cvtColor_BGR2GRAY image))) = true
    ∧ PrimFloat.leb 60 (numpy.mean (cv2.cvtColor_BGR2GRAY image)) = true
    ∧ PrimFloat.leb (numpy.mean (cv2.cvtColor_BGR2GRAY image)) 200 = true
    ∧ get (DeepFaceService.detect_liveness fs img_path) "message"
      = PyStr "Liveness indicators passed".
Proof.
  destruct (detect_liveness_outcome fs img_path)
    as [[_ ->]|[(faces & _ & _ & _ & ->)
       |[(faces & image & Hfaces & Hsome & Hread & ->)|(exc & _ & ->)]]];
    try (by intros [=]).
  cbv zeta.
  change (get (DeepFaceService.liveness ?l ?c ?m) "is_live") with (PyBool l).
  change (get (DeepFaceService.liveness ?l ?c ?m) "message") with (PyStr m).
  intros [= Hlive]. rewrite Hlive.
  apply andb_prop in Hlive as [Hblur Hlit].
  apply andb_prop in Hlit as [Hlow Hhigh].
  by exists faces, image.
Qed.

(** X14.  Every liveness result has the same four keys and the method
    "basic_quality_check".  A result that is neither "Liveness indicators
    passed" nor "Liveness indicators weak" (no face, unreadable image, or the
    text of a library exception) has [is_live] false and confidence 0.0. *)
Theorem detect_liveness_result_shape fs img_path :
  ∃ (live : bool) (confidence : float) (message : string),
    DeepFaceService.detect_liveness fs img_path
    = {[ "is_live" := PyBool live;
         "confidence" := PyFloat confidence;
         "method" := PyStr "basic_quality_check";
         "message" := PyStr message ]}
    ∧ (live = true → message = "Liveness indicators passed")
    ∧ (message ≠ "Liveness indicators passed" →
       message ≠ "Liveness indicators weak" →
       live = false ∧ confidence = 0%float).
Proof.
  destruct (detect_liveness_outcome fs img_path)
    as [[_ ->]|[(faces & _ & _ & _ & ->)
       |[(faces & image & _ & _ & _ & ->)|(exc & _ & ->)]]];
    eexists _, _, _; (split; [reflexivity|]); try done.
  cbv zeta. destruct (_ && _); split; [done| |done|]; intros ? ?; congruence.
Qed.

End liveness_paths.

(** X13 at the sharp, well-lit sample image. *)
Lemma detect_liveness_live_verdict_needs_evidence_witness :
  ∃ faces image,
    @DeepFace.extract_faces (samples.deepface_answering (Ok samples.matching))
      samples.disk_with_document samples.document_path DeepFaceService.DETECTOR_BACKEND
    = Ok faces
    ∧ faces ≠ []
    ∧ @cv2.imread (samples.cv2_two_faces true)
        samples.disk_with_document samples.document_path = Some image
    ∧ PrimFloat.ltb 50
        (@numpy.var samples.numpy_sharp_and_lit
           (@cv2.Laplacian_CV_64F (samples.cv2_two_faces true)
              (@cv2.cvtColor_BGR2GRAY (samples.cv2_two_faces true) image))) = true
    ∧ PrimFloat.leb 60
        (@numpy.mean samples.numpy_sharp_and_lit
           (@cv2.cvtColor_BGR2GRAY (samples.cv2_two_faces true) image)) = true
    ∧ PrimFloat.leb
        (@numpy.mean samples.numpy_sharp_and_lit
           (@cv2.cvtColor_BGR2GRAY (samples.cv2_two_faces true) image)) 200 = true
    ∧ get (@DeepFaceService.detect_liveness
             (samples.deepface_answering (Ok samples.matching))
             (samples.cv2_two_faces true) samples.numpy_sharp_and_lit
             samples.disk_with_document samples.document_path) "message"
      = PyStr "Liveness indicators passed".
Proof.
  apply (@detect_liveness_live_verdict_needs_evidence
           (samples.deepface_answering (Ok samples.matching))
           (samples.cv2_two_faces true) samples.numpy_sharp_and_lit
           samples.disk_with_document samples.document_path).
  reflexivity.
Defined.

(** A library exception never yields a live verdict. *)
Example detect_liveness_on_exception :
  @DeepFaceService.detect_liveness
    (more_samples.deepface_raising (Exception "model weights missing"))
    (samples.cv2_two_faces true) samples.numpy_sharp_and_lit
    samples.disk_with_document samples.document_path
  = DeepFaceService.liveness false 0 "model weights missing".
Proof. reflexivity. Qed.

(* ===================================================================== *)
(** * The endpoints: from the service's dictionary to the answer *)
(* ===================================================================== *)

Section service_answers.
Context {os : OS} {cv : cv2.API} {df : DeepFace.API} {npy : numpy.API}.

Lemma liveness_message fs path :
  ∃ m, DeepFaceService.detect_liveness fs path !! "message" = Some (PyStr m).
Proof.
  destruct (detect_liveness_outcome fs path)
    as [[_ ->]|[(faces & _ & _ & _ & ->)
       |[(faces & image & _ & _ & _ & ->)|(exc & _ & ->)]]]; by eexists.
Qed.

Lemma verification_error_key fs path1 path2 :
  DeepFaceService.verify_faces fs path1 path2 !! "error" = None
  ∨ ∃ e, DeepFaceService.verify_faces fs path1 path2 !! "error" = Some (PyStr e).
Proof.
  destruct (verify_faces_outcome fs path1 path2)
    as [(answer & _ & ->)|(exc & _ & ->)]; [by left|right; by eexists].
Qed.

(** X15.  On a photo with a supported content type, the liveness handler
    answers from the service's dictionary alone whenever it has called the
    service: HTTP 400 with the detail "No face detected" exactly when that is
    the dictionary's message, and the dictionary itself as the 200 body
    otherwise, also when it reports a library failure.  When the service was
    never called, the outcome is the failure of the temporary file, never a
    200 or a 400. *)
Theorem detect_liveness_maps_service_result photo w :
  content_type photo = Some "image/jpeg" ∨ content_type photo = Some "image/png" →
  let '(outcome, w') := liveness.detect_liveness photo w in
  ∃ new, trace w' = (trace w ++ new)%list
    ∧ (∀ service args result, Called service args result ∈ new →
         (∃ fs path, args = [path]
                     ∧ result = DeepFaceService.detect_liveness fs path)
         ∧ ((get result "message" = PyStr "No face detected"
             ∧ outcome = Raise (HTTPException 400 (PyStr "No face detected")))
            ∨ (get result "message" ≠ PyStr "No face detected" ∧ outcome = Ok result)))
    ∧ ((∀ service args result, Called service args result ∉ new) →
         (∃ exc, outcome = Raise (Uncaught exc))
         ∨ (∃ detail, outcome = Raise (HTTPException 500 detail))).
Proof.
  intros Hsupported.
  unfold liveness.detect_liveness.
  unfold mbind, M_bind at 1. rewrite validate_image_accepts by done.
  run.
  all: try match goal with
       | |- context [DeepFaceService.detect_liveness ?fs ?p] =>
           destruct (liveness_message fs p) as (m&Hmessage);
           unfold get; rewrite ?Hmessage; unfold eq_str;
           cbn beta iota zeta delta [default from_option id];
           destruct (String.eqb_spec m "No face detected") as [Hm|Hm]; run
       end.
  all: eexists; (split; [trace_suffix|]).
  all: split.
  all: try (intros service args result Hin; split_trace Hin;
            injection Hin as -> -> ->;
            (split; [by eexists _, _|]);
            unfold get; rewrite ?Hmessage;
            cbn beta iota zeta delta [default from_option id];
            first [ left; split; [by rewrite Hm|by rewrite ?Hm]
                  | right; split; [congruence|done] ]).
  all: intros Hnever.
  all: try (by left; eexists).
  all: try (by right; eexists).
  all: exfalso; eapply Hnever; cbn [app]; repeat first [ by left | right ].
Qed.

End service_answers.

Section verify_face_endpoint.
Context {os : OS} {df : DeepFace.API}.

(** X16.  On two photos with supported content types, the verification
    handler answers from the service's dictionary alone whenever it has called
    the service: HTTP 400 with the error text as detail exactly when the
    dictionary has a non-empty ["error"], and the dictionary itself as the 200
    body when it has no ["error"] or an empty one (a library exception
    without a message).  When the service was never called, the outcome is
    the failure of a temporary file, never a 200 or a 400. *)
Theorem verify_face_maps_service_result live_photo document_photo w :
  content_type live_photo = Some "image/jpeg" ∨ content_type live_photo = Some "image/png" →
  content_type document_photo = Some "image/jpeg"
  ∨ content_type document_photo = Some "image/png" →
  let '(outcome, w') := face_verification.verify_face live_photo document_photo w in
  ∃ new, trace w' = (trace w ++ new)%list
    ∧ (∀ service args result, Called service args result ∈ new →
         (∃ fs live_tmp doc_tmp,
            args = [live_tmp; doc_tmp]
            ∧ result = DeepFaceService.verify_faces fs live_tmp doc_tmp)
         ∧ ((∃ e, result !! "error" = Some (PyStr e) ∧ e ≠ ""
                  ∧ outcome = Raise (HTTPException 400 (PyStr e)))
            ∨ ((result !! "error" = None ∨ result !! "error" = Some (PyStr ""))
               ∧ outcome = Ok result)))
    ∧ ((∀ service args result, Called service args result ∉ new) →
         (∃ exc, outcome = Raise (Uncaught exc))
         ∨ (∃ detail, outcome = Raise (HTTPException 500 detail))).
Proof.
  intros Hlive Hdocument.
  unfold face_verification.verify_face.
  unfold mbind, M_bind at 1. rewrite validate_image_accepts by done.
  unfold M_bind at 1. rewrite validate_image_accepts by done.
  run.
  all: try match goal with
       | |- context [DeepFaceService.verify_faces ?fs ?p ?q] =>
           destruct (verification_error_key fs p q) as [Herror|(e&Herror)];
           unfold get; rewrite ?Herror;
           cbn beta iota zeta delta [default from_option id truthy negb];
           [|destruct (String.eqb_spec e "") as [He|He]];
           run
       end.
  all: eexists; (split; [trace_suffix|]).
  all: split.
  all: try (intros service args result Hin; split_trace Hin;
            injection Hin as -> -> ->;
            (split; [by eexists _, _, _|]);
            rewrite ?Herror;
            first [ left; by exists e
                  | right; split; [by left|done]
                  | right; split; [right; by rewrite ?He|done] ]).
  all: intros Hnever.
  all: try (by left; eexists).
  all: try (by right; eexists).
  all: exfalso; eapply Hnever; cbn [app]; repeat first [ by left | right ].
Qed.

End verify_face_endpoint.

(* ===================================================================== *)
(** * The endpoints: what an answer can be *)
(* ===================================================================== *)

Section answers.
Context {os : OS} {cv : cv2.API} {df : DeepFace.API} {npy : numpy.API}.

Lemma extraction_success_shape fs path :
  OpenCVService.extract_face_from_document fs path !! "success" = Some (PyBool true) →
  ∃ face count,
    1 ≤ count
    ∧ OpenCVService.extract_face_from_document fs path
      = OpenCVService.response true true (PyStr face) count "Largest face extracted".
Proof.
  destruct (extract_face_outcome fs path); try (by intros [=]).
  intros _. eexists _, _. split; [|reflexivity]. cbn [length]. lia.
Qed.

(** X17.  The three answers of the extraction endpoint.  A 200 body is
    always a successful extraction: success and face_found true, a base64
    text, at least one face counted and the message "Largest face
    extracted".  An [HTTPException] has status 400 or 500 and a text as
    detail.  Any other exception leaves the handler in two cases only: the
    creation of the temporary file raised it, and then nothing has happened;
    or the request was cancelled while the upload was read, and then the
    file has been created and its unlink attempted, and nothing else. *)
Theorem extract_face_answers document w :
  let '(outcome, w') := face_extraction.extract_face document w in
  match outcome with
  | Ok body =>
      ∃ face count,
        1 ≤ count
        ∧ body = {[ "success" := PyBool true;
                    "face_found" := PyBool true;
                    "face_base64" := PyStr face;
                    "face_count" := PyInt count;
                    "message" := PyStr "Largest face extracted" ]}
  | Raise (HTTPException status_code detail) =>
      (status_code = 400 ∨ status_code = 500) ∧ ∃ text, detail = PyStr text
  | Raise (Uncaught (Derived exc)) => mkstemp w = Raise exc ∧ w' = w
  | Raise (Uncaught (CancelledError msg)) =>
      ∃ path removed,
        mkstemp w = Ok path
        ∧ read_upload {| disk := <[path := []]> (disk w);
                         trace := (trace w ++ [Created path])%list |} document
          = Raise (CancelledError msg)
        ∧ trace w' = (trace w ++ [Created path; Unlinked path removed])%list
  end.
Proof.
  unfold face_extraction.extract_face, _validate_image.
  destruct (bool_decide _); run.
  all: try match goal with
       | |- context [OpenCVService.extract_face_from_document ?fs ?p] =>
           destruct (extraction_flag_and_message fs p) as (b&m&Hflag&Hmessage);
           unfold get, get_default; rewrite ?Hflag, ?Hmessage;
           destruct b; run
       end.
  all: try (by apply extraction_success_shape).
  all: try (split; [by (left + right)|by eexists]).
  all: try done.
  all: eexists _, _; split_and!; [done|eassumption|by rewrite <- !app_assoc].
Qed.

(** X18.  The three answers of the liveness endpoint.  A 200 body is a
    dictionary of the service whose message is not "No face detected".  A
    400 has one of two details: the rejection of the content type or "No face
    detected".  A 500 carries a text.  Any other exception leaves the handler
    in two cases only: the creation of the temporary file raised it, and then
    nothing has happened; or the request was cancelled while the upload was
    read, and then the file has been created and its unlink attempted, and
    nothing else. *)
Theorem detect_liveness_answers photo w :
  let '(outcome, w') := liveness.detect_liveness photo w in
  match outcome with
  | Ok body =>
      (∃ fs path, body = DeepFaceService.detect_liveness fs path)
      ∧ get body "message" ≠ PyStr "No face detected"
  | Raise (HTTPException status_code detail) =>
      (status_code = 400
       ∧ (detail = PyStr "Unsupported file type. Only JPEG and PNG are allowed."
          ∨ detail = PyStr "No face detected"))
      ∨ (status_code = 500 ∧ ∃ text, detail = PyStr text)
  | Raise (Uncaught (Derived exc)) => mkstemp w = Raise exc ∧ w' = w
  | Raise (Uncaught (CancelledError msg)) =>
      ∃ path removed,
        mkstemp w = Ok path
        ∧ read_upload {| disk := <[path := []]> (disk w);
                         trace := (trace w ++ [Created path])%list |} photo
          = Raise (CancelledError msg)
        ∧ trace w' = (trace w ++ [Created path; Unlinked path removed])%list
  end.
Proof.
  unfold liveness.detect_liveness, _validate_image.
  destruct (bool_decide _); run.
  all: try match goal with
       | |- context [DeepFaceService.detect_liveness ?fs ?p] =>
           destruct (liveness_message fs p) as (m&Hmessage);
           unfold get; rewrite ?Hmessage; unfold eq_str;
           cbn beta iota zeta delta [default from_option id];
           destruct (String.eqb_spec m "No face detected") as [Hm|Hm]; run
       end.
  all: try (split; [by eexists _, _|];
            unfold get; rewrite Hmessage;
            cbn beta iota zeta delta [default from_option id]; congruence).
  all: try (left; split; [done|]; first [by left | right; by rewrite ?Hm]).
  all: try (right; split; [done|by eexists]).
  all: try done.
  all: eexists _, _; split_and!; [done|eassumption|by rewrite <- !app_assoc].
Qed.

End answers.

Section verify_face_answers.
Context {os : OS} {df : DeepFace.API}.

Lemma verification_valid fs path1 path2 :
  schemas.validates schemas.FaceVerificationResponse
    (DeepFaceService.verify_faces fs path1 path2) = true.
Proof.
  by destruct (verify_faces_outcome fs path1 path2)
    as [(answer & _ & ->)|(exc & _ & ->)].
Qed.

(** X19.  The three answers of the verification endpoint.  A 200 body is a
    dictionary of the service that is a valid [FaceVerificationResponse] and
    has no error text.  An [HTTPException] has status 400 or 500 and a text
    as detail.  Any other exception leaves the handler in three cases only:
    the creation of the first temporary file raised it, and then nothing has
    happened; the creation of the second raised it, and then the first file
    is on disk, empty; or the request was cancelled while one of the uploads
    was read, and then both files have been created and their unlinks
    attempted, and nothing else. *)
Theorem verify_face_answers live_photo document_photo w :
  let '(outcome, w') := face_verification.verify_face live_photo document_photo w in
  match outcome with
  | Ok body =>
      (∃ fs live_tmp doc_tmp, body = DeepFaceService.verify_faces fs live_tmp doc_tmp)
      ∧ truthy (get body "error") = false
      ∧ schemas.validates schemas.FaceVerificationResponse body = true
  | Raise (HTTPException status_code detail) =>
      (status_code = 400 ∨ status_code = 500) ∧ ∃ text, detail = PyStr text
  | Raise (Uncaught (Derived exc)) =>
      (mkstemp w = Raise exc ∧ w' = w)
      ∨ ∃ live_tmp,
          mkstemp w = Ok live_tmp
          ∧ mkstemp w' = Raise exc
          ∧ disk w' = <[live_tmp := []]> (disk w)
          ∧ trace w' = (trace w ++ [Created live_tmp])%list
  | Raise (Uncaught (CancelledError msg)) =>
      ∃ live_tmp doc_tmp removed1 removed2 cancelled,
        (read_upload cancelled live_photo = Raise (CancelledError msg)
         ∨ read_upload cancelled document_photo = Raise (CancelledError msg))
        ∧ trace cancelled = (trace w ++ [Created live_tmp; Created doc_tmp])%list
        ∧ trace w' = (trace w ++ [Created live_tmp; Created doc_tmp;
                                  Unlinked live_tmp removed1;
                                  Unlinked doc_tmp removed2])%list
  end.
Proof.
  unfold face_verification.verify_face, _validate_image.
  destruct (bool_decide _), (bool_decide _); run.
  all: try match goal with
       | |- context [DeepFaceService.verify_faces ?fs ?p ?q] =>
           destruct (verification_error_key fs p q) as [Herror|(e&Herror)];
           unfold get; rewrite ?Herror;
           cbn beta iota zeta delta [default from_option id truthy negb];
           [|destruct (String.eqb_spec e "") as [He|He]];
           run
       end.
  all: try (split_and!; [by eexists _, _, _| |apply verification_valid];
            unfold get; rewrite Herror; by rewrite ?He).
  all: try (split; [by (left + right)|by eexists]).
  all: try (by left).
  all: try (right; eexists; by split_and!).
  all: eexists _, _, _, _, _; split_and!;
    [ first [left; eassumption | right; eassumption]
    | cbn [trace log]; by rewrite <- !app_assoc
    | by rewrite <- !app_assoc ].
Qed.

End verify_face_answers.

(* ===================================================================== *)
(** * The endpoints: the disk as a handler uses it *)
(* ===================================================================== *)

(** A file name other than the temporary ones of the run. *)
Ltac other_file :=
  repeat match goal with
  | H : Created ?q ∉ ?l |- _ =>
      match l with
      | context [Created ?p] =>
          lazymatch goal with
          | _ : q ≠ p |- _ => fail
          | _ => assert (q ≠ p)
                   by (intros ->; apply H; repeat first [by left | right])
          end
      end
  end.

Section disk_use.
Context {os : OS} {cv : cv2.API} {df : DeepFace.API} {npy : numpy.API}.

Lemma insert_over_created (d : files) path1 path2 content1 content2 :
  <[path2 := content2]> (<[path1 := content1]> (<[path2 := []]> (<[path1 := []]> d)))
  = <[path2 := content2]> (<[path1 := content1]> d).
Proof.
  apply map_eq. intros k.
  destruct (decide (path2 = k)) as [->|]; [by rewrite !lookup_insert_eq|].
  rewrite !(lookup_insert_ne _ path2) by done.
  destruct (decide (path1 = k)) as [->|]; [by rewrite !lookup_insert_eq|].
  by repeat rewrite lookup_insert_ne by done.
Qed.

(** X20.  Whenever [extract_face] calls the service, it is on the disk as
    the handler found it with the bytes read from the upload stored at the
    temporary path, and that path is the argument.  Whatever happens, no
    file other than the temporary one is created, changed or removed. *)
Theorem extract_face_disk_use document w :
  let '(outcome, w') := face_extraction.extract_face document w in
  ∃ new, trace w' = (trace w ++ new)%list
    ∧ (∀ service args result, Called service args result ∈ new →
         ∃ path content w0,
           args = [path]
           ∧ read_upload w0 document = Ok content
           ∧ result = OpenCVService.extract_face_from_document
                        (<[path := content]> (disk w)) path)
    ∧ (∀ q, Created q ∉ new → disk w' !! q = disk w !! q).
Proof.
  unfold face_extraction.extract_face, _validate_image.
  destruct (bool_decide _); run.
  all: try match goal with
       | |- context [if ?b then _ else _] => destruct b; run
       end.
  all: eexists; (split; [trace_suffix|]).
  all: split;
    [ intros service args result Hin; split_trace Hin;
      try (injection Hin as -> -> ->;
           eexists _, _, _; split_and!; [reflexivity|eassumption|];
           by rewrite insert_insert_eq)
    | intros q Hnot; cbn [app] in Hnot; other_file;
      by rewrite ?lookup_delete_ne, ?lookup_insert_ne by done ].
Qed.

(** X21.  The same for [detect_liveness]: the service reads the uploaded
    bytes at the temporary path, and no other file is touched. *)
Theorem detect_liveness_disk_use photo w :
  let '(outcome, w') := liveness.detect_liveness photo w in
  ∃ new, trace w' = (trace w ++ new)%list
    ∧ (∀ service args result, Called service args result ∈ new →
         ∃ path content w0,
           args = [path]
           ∧ read_upload w0 photo = Ok content
           ∧ result = DeepFaceService.detect_liveness
                        (<[path := content]> (disk w)) path)
    ∧ (∀ q, Created q ∉ new → disk w' !! q = disk w !! q).
Proof.
  unfold liveness.detect_liveness, _validate_image.
  destruct (bool_decide _); run.
  all: try match goal with
       | |- context [if ?b then _ else _] => destruct b; run
       end.
  all: eexists; (split; [trace_suffix|]).
  all: split;
    [ intros service args result Hin; split_trace Hin;
      try (injection Hin as -> -> ->;
           eexists _, _, _; split_and!; [reflexivity|eassumption|];
           by rewrite insert_insert_eq)
    | intros q Hnot; cbn [app] in Hnot; other_file;
      by rewrite ?lookup_delete_ne, ?lookup_insert_ne by done ].
Qed.

(** X22.  Whenever [verify_face] calls the service, it is on the disk as
    the handler found it with the bytes of the live photo at the first
    temporary path and those of the document photo at the second, the two
    paths being the arguments in that order; every file other than the two
    temporary ones is, at the end, as the library's call left it (the
    library may download the weights of its model).  When the service is not
    called, no file other than the temporary ones is created, changed or
    removed. *)
Theorem verify_face_disk_use live_photo document_photo w :
  let '(outcome, w') := face_verification.verify_face live_photo document_photo w in
  ∃ new, trace w' = (trace w ++ new)%list
    ∧ (∀ service args result, Called service args result ∈ new →
         ∃ live_tmp doc_tmp live_content doc_content w1 w2,
           args = [live_tmp; doc_tmp]
           ∧ read_upload w1 live_photo = Ok live_content
           ∧ read_upload w2 document_photo = Ok doc_content
           ∧ result = DeepFaceService.verify_faces
                        (<[doc_tmp := doc_content]> (<[live_tmp := live_content]> (disk w)))
                        live_tmp doc_tmp
           ∧ ∀ q, q ≠ live_tmp → q ≠ doc_tmp →
               disk w' !! q
               = DeepFace.files_after_verify
                   (<[doc_tmp := doc_content]> (<[live_tmp := live_content]> (disk w)))
                   live_tmp doc_tmp
                   DeepFaceService.MODEL_NAME DeepFaceService.DETECTOR_BACKEND !! q)
    ∧ ((∀ service args result, Called service args result ∉ new) →
       ∀ q, Created q ∉ new → disk w' !! q = disk w !! q).
Proof.
  unfold face_verification.verify_face, _validate_image.
  destruct (bool_decide _), (bool_decide _); run.
  all: try match goal with
       | |- context [if ?b then _ else _] => destruct b; run
       end.
  all: eexists; (split; [trace_suffix|]).
  all: split;
    [ intros service args result Hin; split_trace Hin;
      try (injection Hin as -> -> ->;
           eexists _, _, _, _, _, _; split_and!; [reflexivity| | | |]; revgoals;
           [ intros q Hlive Hdoc;
             rewrite ?lookup_delete_ne by done; by rewrite insert_over_created
           | by rewrite insert_over_created
           | eassumption.. ])
    | intros Hnever q Hnot; cbn [app] in Hnot, Hnever;
      first [ other_file; by rewrite ?lookup_delete_ne, ?lookup_insert_ne by done
            | exfalso; eapply Hnever; repeat first [ by left | right ] ] ].
Qed.

End disk_use.

(* ===================================================================== *)
(** * The liveness and verification endpoints on sample requests *)
(* ===================================================================== *)

(** X15 at a PNG upload on a system where nothing fails. *)
Lemma detect_liveness_maps_service_result_witness :
  let '(outcome, w') :=
    @liveness.detect_liveness samples.os_reliable
      (samples.deepface_answering (Ok samples.matching))
      (samples.cv2_two_faces true) samples.numpy_sharp_and_lit
      (more_samples.png_upload "selfie.png" samples.jpeg) more_samples.busy in
  ∃ new, trace w' = (trace more_samples.busy ++ new)%list
    ∧ (∀ service args result, Called service args result ∈ new →
         (∃ fs path, args = [path]
                     ∧ result = @DeepFaceService.detect_liveness
                                  (samples.deepface_answering (Ok samples.matching))
                                  (samples.cv2_two_faces true) samples.numpy_sharp_and_lit
                                  fs path)
         ∧ ((get result "message" = PyStr "No face detected"
             ∧ outcome = Raise (HTTPException 400 (PyStr "No face detected")))
            ∨ (get result "message" ≠ PyStr "No face detected" ∧ outcome = Ok result)))
    ∧ ((∀ service args result, Called service args result ∉ new) →
         (∃ exc, outcome = Raise (Uncaught exc))
         ∨ (∃ detail, outcome = Raise (HTTPException 500 detail))).
Proof.
  apply (@detect_liveness_maps_service_result samples.os_reliable
           (samples.cv2_two_faces true)
           (samples.deepface_answering (Ok samples.matching))
           samples.numpy_sharp_and_lit
           (more_samples.png_upload "selfie.png" samples.jpeg) more_samples.busy).
  by right.
Defined.

(** X16 at a JPEG and a PNG upload, with a library that finds no face. *)
Lemma verify_face_maps_service_result_witness :
  let '(outcome, w') :=
    @face_verification.verify_face samples.os_reliable
      (more_samples.deepface_raising (ValueError "Face could not be detected"))
      (samples.jpeg_upload "selfie.jpg")
      (more_samples.png_upload "passport.png" samples.jpeg) more_samples.busy in
  ∃ new, trace w' = (trace more_samples.busy ++ new)%list
    ∧ (∀ service args result, Called service args result ∈ new →
         (∃ fs live_tmp doc_tmp,
            args = [live_tmp; doc_tmp]
            ∧ result = @DeepFaceService.verify_faces
                         (more_samples.deepface_raising
                            (ValueError "Face could not be detected"))
                         fs live_tmp doc_tmp)
         ∧ ((∃ e, result !! "error" = Some (PyStr e) ∧ e ≠ ""
                  ∧ outcome = Raise (HTTPException 400 (PyStr e)))
            ∨ ((result !! "error" = None ∨ result !! "error" = Some (PyStr ""))
               ∧ outcome = Ok result)))
    ∧ ((∀ service args result, Called service args result ∉ new) →
         (∃ exc, outcome = Raise (Uncaught exc))
         ∨ (∃ detail, outcome = Raise (HTTPException 500 detail))).
Proof.
  apply (@verify_face_maps_service_result samples.os_reliable
           (more_samples.deepface_raising (ValueError "Face could not be detected"))
           (samples.jpeg_upload "selfie.jpg")
           (more_samples.png_upload "passport.png" samples.jpeg) more_samples.busy).
  - by left.
  - by right.
Defined.

(** A face that the library cannot find is a 400; a library failure without
    a message is a 200 whose body reports no match; a library failure in the
    liveness check is a 200 that reports no live face.  The unrelated file on
    disk is as it was. *)
Example verify_face_no_face_run :
  let run :=
    @face_verification.verify_face samples.os_reliable
      (more_samples.deepface_raising (ValueError "Face could not be detected"))
      (samples.jpeg_upload "selfie.jpg")
      (more_samples.png_upload "passport.png" samples.jpeg) more_samples.busy in
  run.1 = Raise (HTTPException 400 (PyStr "No face detected"))
  ∧ disk run.2 = disk more_samples.busy.
Proof. split; reflexivity. Qed.

Example verify_face_silent_failure_run :
  let run :=
    @face_verification.verify_face samples.os_reliable
      (more_samples.deepface_raising (Exception ""))
      (samples.jpeg_upload "selfie.jpg")
      (more_samples.png_upload "passport.png" samples.jpeg) more_samples.busy in
  run.1 = Ok (DeepFaceService.verification_error "")
  ∧ schemas.dump schemas.FaceVerificationResponse (DeepFaceService.verification_error "")
    = DeepFaceService.verification false 0 1 0
  ∧ disk run.2 = disk more_samples.busy.
Proof. split_and!; reflexivity. Qed.

Example detect_liveness_library_failure_run :
  let run :=
    @liveness.detect_liveness samples.os_reliable
      (more_samples.deepface_raising (Exception "model weights missing"))
      (samples.cv2_two_faces true) samples.numpy_sharp_and_lit
      (more_samples.png_upload "selfie.png" samples.jpeg) more_samples.busy in
  run.1 = Ok (DeepFaceService.liveness false 0 "model weights missing")
  ∧ disk run.2 = disk more_samples.busy.
Proof. split; reflexivity. Qed.

(** A request cancelled while the upload is read: the cancellation leaves
    the handler after the temporary file has been created and unlinked. *)
Example extract_face_cancelled_run :
  let run :=
    @face_extraction.extract_face more_samples.os_cancelled (samples.cv2_two_faces true)
      (samples.jpeg_upload "passport.jpg") samples.idle in
  run.1 = Raise (Uncaught (CancelledError ""))
  ∧ trace run.2 = [Created "/tmp/tmp0.jpg"; Unlinked "/tmp/tmp0.jpg" true]
  ∧ disk run.2 = ∅.
Proof. split_and!; reflexivity. Qed.

Example verify_face_cancelled_run :
  let run :=
    @face_verification.verify_face more_samples.os_cancelled
      (samples.deepface_answering (Ok samples.matching))
      (samples.jpeg_upload "selfie.jpg") (samples.jpeg_upload "passport.jpg")
      samples.idle in
  run.1 = Raise (Uncaught (CancelledError ""))
  ∧ trace run.2
    = [Created "/tmp/tmp0.jpg"; Created "/tmp/tmp1.jpg";
       Unlinked "/tmp/tmp0.jpg" true; Unlinked "/tmp/tmp1.jpg" true]
  ∧ disk run.2 = ∅.
Proof. split_and!; reflexivity. Qed.

(** A verification during which the library downloads its weights: the two
    temporary files are gone and the weights stay on disk. *)
Example verify_face_download_run :
  let run :=
    @face_verification.verify_face samples.os_reliable
      (more_samples.deepface_downloading samples.matching)
      (samples.jpeg_upload "selfie.jpg") (samples.jpeg_upload "passport.jpg")
      samples.idle in
  run.1 = Ok (DeepFaceService.verification true 0.75 0.25 0.6875)
  ∧ disk run.2 = {[ more_samples.weights_path := samples.jpeg ]}.
Proof. split; reflexivity. Qed.
